(** * dbus-python [_dbus_bindings]: typed containers and the pending-call bridge

    A shallow embedding of [containers-impl.h] (Array, Dictionary, Struct)
    and [pending-call-impl.h] (PendingCall), with the properties the
    specification states about them.

    The C functions are translated one by one and keep their names.  What
    the CPython runtime and libdbus do for them is modelled in [Module Py]
    and in the environment records; the [Signature] and [Message]
    collaborators, which live in other files of the binding, are
    parameters. *)

From Stdlib Require Import ZArith List String Ascii Bool Lia DecimalString.
From stdpp Require Import gmap strings.

Local Open Scope Z_scope.

(** ** The fragment of the CPython 2 runtime the bindings rely on *)

Module Py.

(** Exception classes.  [ImmutableError] is the "immutability violation"
    of the specification (section 7). *)
Inductive exn :=
| TypeError | ValueError | OverflowError | MemoryError | AttributeError
| ImmutableError.

(** A C function that returns NULL (or -1) with the error indicator set,
    or a value. *)
Inductive result (A : Type) :=
| Ok (a : A)
| Raise (e : exn).
Arguments Ok {A} a.
Arguments Raise {A} e.

#[global] Instance result_ret : MRet result := fun _ a => Ok a.
#[global] Instance result_bind : MBind result := fun _ _ f m =>
  match m with Ok a => f a | Raise e => Raise e end.
#[global] Instance result_fmap : FMap result := fun _ _ f m =>
  match m with Ok a => Ok (f a) | Raise e => Raise e end.

Definition is_Ok {A} (r : result A) : bool :=
  match r with Ok _ => true | Raise _ => false end.

(** Python values.  [PyInt] carries a C [long], [PyLong] an unbounded
    integer; [PySignature] is an instance of the binding's [SignatureType]
    (a [str] subtype) with its validated text. *)
#[local] Set Warnings "-register-all".
Inductive object :=
| PyNone
| PyInt (ob_ival : Z)
| PyLong (value : Z)
| PyStr (ob_sval : string)
| PySignature (ob_sval : string)
| PyTuple (ob_item : list object)
| PyList (ob_item : list object)
| PyDict (ma_table : list (object * object)).
#[local] Set Warnings "register-all".

(** [PyObject *kwargs]: NULL, or a dict whose keys are strings. *)
Abbreviation kwdict := (option (gmap string object)).

(** The range of a C [long] (LP64). *)
Definition LONG_MAX : Z := 2 ^ 63 - 1.
Definition LONG_MIN : Z := - 2 ^ 63.

Definition fits_long (n : Z) : bool := (LONG_MIN <=? n) && (n <=? LONG_MAX).

(** [PyInt_AsLong] followed by [PyErr_Occurred()]: the value of an int,
    of a long that fits, and an error for everything else (no [nb_int]
    slot, or [OverflowError]). *)
Definition PyInt_AsLong (o : object) : result Z :=
  match o with
  | PyInt n => Ok n
  | PyLong n => if fits_long n then Ok n else Raise OverflowError
  | _ => Raise TypeError
  end.

(** [PyObject_TypeCheck(o, &PyInt_Type)], what the format unit [O!] tests. *)
Definition PyInt_Check (o : object) : bool :=
  match o with PyInt _ => true | _ => false end.

Definition is_None (o : object) : bool :=
  match o with PyNone => true | _ => false end.

(** [PyDict_GetItem(kwargs, name)] guarded by [if (kwargs)]. *)
Definition kw_lookup (kwargs : kwdict) (name : string) : option object :=
  match kwargs with
  | Some kw => kw !! name
  | None => None
  end.

(** [PyArg_ParseTupleAndKeywords] with every argument optional ("|O...").
    Positional arguments fill the names from the left; the others are
    looked up by name.  More positionals than names, a name given twice
    and a keyword outside [argnames] are [TypeError]s. *)
Fixpoint bind_args (args : list object) (kwargs : kwdict)
    (argnames : list string) : result (list (option object)) :=
  match argnames, args with
  | [], [] => Ok []
  | [], _ :: _ => Raise TypeError
  | n :: argnames', a :: args' =>
      match kw_lookup kwargs n with
      | Some _ => Raise TypeError
      | None => rest ← bind_args args' kwargs argnames'; Ok (Some a :: rest)
      end
  | n :: argnames', [] =>
      rest ← bind_args [] kwargs argnames'; Ok (kw_lookup kwargs n :: rest)
  end.

Definition known_keywords (kwargs : kwdict) (argnames : list string) : bool :=
  match kwargs with
  | Some kw => forallb (fun k => bool_decide (k ∈ argnames)) (elements (dom kw))
  | None => true
  end.

Definition PyArg_ParseTupleAndKeywords (args : list object) (kwargs : kwdict)
    (argnames : list string) : result (list (option object)) :=
  if known_keywords kwargs argnames then bind_args args kwargs argnames
  else Raise TypeError.

(** *** Text *)

(** ["%ld"] of [PyString_FromFormat]. *)
Definition string_of_long (n : Z) : string :=
  NilZero.string_of_int (Z.to_int n).

Fixpoint join (sep : string) (l : list string) : string :=
  match l with
  | [] => EmptyString
  | [x] => x
  | x :: l' => x +:+ sep +:+ join sep l'
  end.

Definition hex_digit (n : N) : ascii :=
  ascii_of_N (if (n <? 10)%N then 48 + n else 87 + n)%N.

Fixpoint contains_char (c : ascii) (s : string) : bool :=
  match s with
  | EmptyString => false
  | String c' s' => Ascii.eqb c c' || contains_char c s'
  end.

Definition backslash : ascii := ascii_of_nat 92.

(** [string_repr] of stringobject.c: the escapes of one character. *)
Definition repr_char (quote c : ascii) : string :=
  let n := N_of_ascii c in
  if Ascii.eqb c quote || Ascii.eqb c backslash then String backslash (String c EmptyString)
  else if (n =? 9)%N then String backslash "t"
  else if (n =? 10)%N then String backslash "n"
  else if (n =? 13)%N then String backslash "r"
  else if (n <? 32)%N || (127 <=? n)%N then
    String backslash (String "x" (String (hex_digit (n / 16)) (String (hex_digit (n mod 16)) EmptyString)))
  else String c EmptyString.

Fixpoint repr_chars (quote : ascii) (s : string) : string :=
  match s with
  | EmptyString => EmptyString
  | String c s' => repr_char quote c +:+ repr_chars quote s'
  end.

Definition dquote : ascii := ascii_of_nat 34.

Definition string_repr (s : string) : string :=
  let quote : ascii :=
    if contains_char "'" s && negb (contains_char dquote s) then dquote
    else "'"%char in
  String quote (repr_chars quote s +:+ String quote EmptyString).

(** *** Iteration, and the initialisers of the base containers *)

(** What the binding's other files provide for [Signature], and which
    allocations fail.  [Signature_tp_new x] is the call
    [SignatureType(x)]: the text of the new instance, or the error of the
    validator.  The specification gives it as
    [Signature(text) -> Signature | validation-error]. *)
Inductive alloc_site :=
| site_tp_new | site_build_value | site_setattr (attr : string)
| site_parent_repr | site_sig_repr | site_format.

Record Runtime := {
  Signature_tp_new : object -> result string;
  Signature_tp_repr : string -> string;
  Signature_tp_iter : string -> list object * result unit;
  oom : alloc_site -> bool
}.

Section WithRuntime.
Variable rt : Runtime.

(** [PyObject_CallFunction((PyObject * )&SignatureType, "(O)", x)]. *)
Definition Signature_call (x : object) : result object :=
  PySignature <$> Signature_tp_new rt x.

(** [PyObject_IsInstance(o, (PyObject * )&SignatureType)]: the instances of
    [SignatureType] are the values [PySignature]. *)
Definition Signature_Check (o : object) : bool :=
  match o with PySignature _ => true | _ => false end.

(** The items an iterator over [o] yields before it stops, and whether
    it stopped with an error. *)
Definition iterate (o : object) : list object * result unit :=
  match o with
  | PyTuple l | PyList l => (l, Ok tt)
  | PyStr s => (map (fun c => PyStr (String c EmptyString)) (list_ascii_of_string s), Ok tt)
  | PyDict d => (map fst d, Ok tt)
  | PySignature s => Signature_tp_iter rt s
  | PyNone | PyInt _ | PyLong _ => ([], Raise TypeError)
  end.

(** [PyObject_Repr] and the [tp_repr] slots of list, tuple and dict. *)
Fixpoint PyObject_Repr (o : object) : string :=
  match o with
  | PyNone => "None"
  | PyInt n => string_of_long n
  | PyLong n => string_of_long n +:+ "L"
  | PyStr s => string_repr s
  | PySignature s => Signature_tp_repr rt s
  | PyTuple [x] => "(" +:+ PyObject_Repr x +:+ ",)"
  | PyTuple l => "(" +:+ join ", " (map PyObject_Repr l) +:+ ")"
  | PyList l => "[" +:+ join ", " (map PyObject_Repr l) +:+ "]"
  | PyDict d =>
      "{" +:+ join ", " (map (fun kv => PyObject_Repr (fst kv) +:+ ": "
                                        +:+ PyObject_Repr (snd kv)) d) +:+ "}"
  end.

Definition PyList_tp_repr (ob_item : list object) : result string :=
  if oom rt site_parent_repr then Raise MemoryError
  else Ok (PyObject_Repr (PyList ob_item)).

Definition PyTuple_tp_repr (ob_item : list object) : result string :=
  if oom rt site_parent_repr then Raise MemoryError
  else Ok (PyObject_Repr (PyTuple ob_item)).

Definition PyDict_tp_repr (ma_table : list (object * object)) : result string :=
  if oom rt site_parent_repr then Raise MemoryError
  else Ok (PyObject_Repr (PyDict ma_table)).

(** [PyObject_Repr(self->signature)] as the containers call it. *)
Definition signature_repr (sig : object) : result string :=
  if oom rt site_sig_repr then Raise MemoryError else Ok (PyObject_Repr sig).

(** [Py_BuildValue("(O)", obj)]: a one-element argument tuple. *)
Definition Py_BuildValue_O (obj : object) : result (list object) :=
  if oom rt site_build_value then Raise MemoryError else Ok [obj].

(** [list_init]: empty the list, then extend it with the items of the
    argument.  The second component is the error, if any; the list
    keeps what was stored before the error. *)
Definition PyList_tp_init (ob_item : list object) (args : list object)
    : list object * result unit :=
  match args with
  | [] => ([], Ok tt)
  | [arg] => iterate arg
  | _ => (ob_item, Raise TypeError)
  end.

(** [tuple_new] for a subtype: the items of the one argument. *)
Definition PyTuple_tp_new (args : list object) : result (list object) :=
  if oom rt site_tp_new then Raise MemoryError
  else match args with
       | [] => Ok []
       | [arg] => match iterate arg with
                  | (l, Ok _) => Ok l
                  | (_, Raise e) => Raise e
                  end
       | _ => Raise TypeError
       end.

(** Keys: hashing and comparison.  Numbers compare by value, strings
    (and their [Signature] subtype) by text, tuples item by item; lists
    and dicts cannot be hashed. *)
Fixpoint hashable (o : object) : bool :=
  match o with
  | PyList _ | PyDict _ => false
  | PyTuple l => forallb hashable l
  | _ => true
  end.

Fixpoint key_eqb (a b : object) : bool :=
  match a, b with
  | PyNone, PyNone => true
  | (PyInt n | PyLong n), (PyInt m | PyLong m) => n =? m
  | (PyStr s | PySignature s), (PyStr t | PySignature t) => String.eqb s t
  | PyTuple l, PyTuple l' =>
      (fix all2 (l l' : list object) : bool :=
         match l, l' with
         | [], [] => true
         | x :: l, y :: l' => key_eqb x y && all2 l l'
         | _, _ => false
         end) l l'
  | _, _ => false
  end.

Fixpoint insertdict (k v : object) (mp : list (object * object))
    : list (object * object) :=
  match mp with
  | [] => [(k, v)]
  | (k', v') :: mp' =>
      if key_eqb k' k then (k', v) :: mp' else (k', v') :: insertdict k v mp'
  end.

Definition PyDict_SetItem (mp : list (object * object)) (k v : object)
    : result (list (object * object)) :=
  if hashable k then Ok (insertdict k v mp) else Raise TypeError.

(** [PyDict_Merge(mp, other, 1)]: every entry of [other] is stored in
    [mp], overriding an entry with the same key; the other entries of
    [mp] stay. *)
Fixpoint PyDict_Merge (mp other : list (object * object))
    : list (object * object) * result unit :=
  match other with
  | [] => (mp, Ok tt)
  | (k, v) :: other' =>
      match PyDict_SetItem mp k v with
      | Ok mp' => PyDict_Merge mp' other'
      | Raise e => (mp, Raise e)
      end
  end.

(** [PySequence_Fast] on an element of the update sequence. *)
Definition PySequence_Fast (item : object) : result (list object) :=
  match iterate item with
  | (l, Ok _) => Ok l
  | (_, Raise e) => Raise e
  end.

(** [PyDict_MergeFromSeq2(mp, seq2, 1)]: each element is a pair. *)
Fixpoint merge_pairs (mp : list (object * object)) (pairs : list object)
    : list (object * object) * result unit :=
  match pairs with
  | [] => (mp, Ok tt)
  | item :: pairs' =>
      match PySequence_Fast item with
      | Ok [k; v] =>
          match PyDict_SetItem mp k v with
          | Ok mp' => merge_pairs mp' pairs'
          | Raise e => (mp, Raise e)
          end
      | Ok _ => (mp, Raise ValueError)
      | Raise e => (mp, Raise e)
      end
  end.

Definition PyDict_MergeFromSeq2 (mp : list (object * object)) (seq2 : object)
    : list (object * object) * result unit :=
  match iterate seq2 with
  | (pairs, Ok _) => merge_pairs mp pairs
  | (pairs, Raise e) =>
      match merge_pairs mp pairs with
      | (mp', Ok _) => (mp', Raise e)
      | r => r
      end
  end.

(** [dict_init], that is [dict_update_common]: a mapping (an object with
    [keys]) is merged, anything else is read as a sequence of pairs.
    The entries already stored are not removed. *)
Definition PyDict_tp_init (mp : list (object * object)) (args : list object)
    : list (object * object) * result unit :=
  match args with
  | [] => (mp, Ok tt)
  | [PyDict other] => PyDict_Merge mp other
  | [arg] => PyDict_MergeFromSeq2 mp arg
  | _ => (mp, Raise TypeError)
  end.

End WithRuntime.

End Py.

(** ** containers-impl.h *)

Module Containers.
Import Py.

(** [signature_const] is interned from ["signature"] in
    [init_container_types]. *)
Definition signature_const : string := "signature".

(** Modelled from the spec: [variant_level_const] is created in another file
    of the binding; the specification names the keyword and the attribute
    [variant_level]. *)
Definition variant_level_const : string := "variant_level".

(** Modelled from the spec: [empty_tuple] is created in another file of the
    binding; the specification gives the default of the first parameter as
    "empty". *)
Definition empty_tuple : object := PyTuple [].

(** [struct PyMemberDef]: the offset is the field it designates. *)
Inductive member_type := T_OBJECT | T_LONG.
Inductive member_offset := offsetof_signature | offsetof_variant_level.

Record PyMemberDef := {
  name : string;
  type : member_type;
  offset : member_offset;
  READONLY : bool
}.

(** *** Array *)

Record Array := {
  Array_tp_name : string;          (* self->super.ob_type->tp_name *)
  Array_super : list object;       (* the items of the list *)
  Array_signature : object;
  Array_variant_level : Z
}.

Definition Array_tp_members : list PyMemberDef :=
  [ {| name := "signature"; type := T_OBJECT; offset := offsetof_signature;
       READONLY := true |};
    {| name := "variant_level"; type := T_LONG; offset := offsetof_variant_level;
       READONLY := true |} ].

Definition Array_init_argnames : list string :=
  ["iterable"; "signature"; "variant_level"].

(** *** Dict *)

Record Dict := {
  Dict_tp_name : string;
  Dict_super : list (object * object);   (* the entries of the dict *)
  Dict_signature : object;
  Dict_variant_level : Z
}.

Definition Dict_tp_members : list PyMemberDef :=
  [ {| name := "signature"; type := T_OBJECT; offset := offsetof_signature;
       READONLY := true |};
    {| name := "variant_level"; type := T_LONG; offset := offsetof_variant_level;
       READONLY := true |} ].

Definition Dict_init_argnames : list string :=
  ["mapping_or_iterable"; "signature"; "variant_level"].

(** *** Struct: a tuple with an instance dictionary ([tp_dictoffset]) *)

Record Struct := {
  Struct_tp_name : string;
  Struct_ob_item : list object;
  Struct_dict : gmap string object
}.

Definition Struct_new_argnames : list string := ["signature"; "variant_level"].

(** The three arguments of ["|OOO:__init__"]. *)
Definition parse_OOO (args : list object) (kwargs : kwdict) (argnames : list string)
    : result (option object * option object * option object) :=
  parsed ← PyArg_ParseTupleAndKeywords args kwargs argnames;
  match parsed with
  | [a; b; c] => Ok (a, b, c)
  | _ => Raise TypeError
  end.

(** The two arguments of ["|OO!:__new__"], the second an instance of
    [PyInt_Type]. *)
Definition parse_OOint (args : list object) (kwargs : kwdict) (argnames : list string)
    : result (option object * option object) :=
  parsed ← PyArg_ParseTupleAndKeywords args kwargs argnames;
  match parsed with
  | [a; Some b] => if PyInt_Check b then Ok (a, Some b) else Raise TypeError
  | [a; None] => Ok (a, None)
  | _ => Raise TypeError
  end.

(** [PyMember_SetOne] as [PyObject_GenericSetAttr] reaches it through the
    member descriptor; [value = None] is a deletion. *)
Definition member_store (m : PyMemberDef) (signature : object) (variant_level : Z)
    (value : option object) : (object * Z) * result unit :=
  if READONLY m then ((signature, variant_level), Raise TypeError)
  else match offset m, type m, value with
       | offsetof_signature, T_OBJECT, Some v => ((v, variant_level), Ok tt)
       | offsetof_signature, T_OBJECT, None => ((PyNone, variant_level), Ok tt)
       | offsetof_variant_level, T_LONG, Some v =>
           match PyInt_AsLong v with
           | Ok n => ((signature, n), Ok tt)
           | Raise e => ((signature, variant_level), Raise e)
           end
       | _, _, _ => ((signature, variant_level), Raise TypeError)
       end.

Definition find_member (members : list PyMemberDef) (attr : string) : option PyMemberDef :=
  find (fun m => String.eqb (name m) attr) members.

(** The value the keyword [variant_level] of a call stands for: 0 when the
    call does not give it. *)
Definition keyword_variant_level (kwargs : kwdict) : result Z :=
  match kw_lookup kwargs variant_level_const with
  | Some v => PyInt_AsLong v
  | None => Ok 0
  end.

(** The display form the containers produce: the clause for the variant
    level is there for a positive level. *)
Definition variant_level_clause (variant_level : Z) : string :=
  if 0 <? variant_level then ", variant_level=" +:+ string_of_long variant_level
  else EmptyString.

Definition container_repr (tp_name base_repr sig_repr : string) (variant_level : Z)
    : string :=
  tp_name +:+ "(" +:+ base_repr +:+ ", signature=" +:+ sig_repr
  +:+ variant_level_clause variant_level +:+ ")".

(** The display form in the words of the specification: the clause is left
    out when the level is 0, and only then. *)
Definition spec_container_repr (tp_name base_repr sig_repr : string)
    (variant_level : Z) : string :=
  if variant_level =? 0 then
    tp_name +:+ "(" +:+ base_repr +:+ ", signature=" +:+ sig_repr +:+ ")"
  else
    tp_name +:+ "(" +:+ base_repr +:+ ", signature=" +:+ sig_repr
    +:+ ", variant_level=" +:+ string_of_long variant_level +:+ ")".

Section WithRuntime.
Variable rt : Runtime.

(** The rule of the specification for the [signature] argument: absent or
    None stays None, a Signature is kept as it is, anything else is given to
    the constructor of [Signature]. *)
Definition normalized_signature (signature : option object) : result object :=
  match signature with
  | None | Some PyNone => Ok PyNone
  | Some (PySignature s) => Ok (PySignature s)
  | Some x => PySignature <$> Signature_tp_new rt x
  end.

(** **** Array *)

Definition Array_tp_repr (self : Array) : result string :=
  let parent_repr := PyList_tp_repr rt (Array_super self) in
  let sig_repr := signature_repr rt (Array_signature self) in
  let variant_level := Array_variant_level self in
  match parent_repr, sig_repr with
  | Ok parent_repr, Ok sig_repr =>
      if oom rt site_format then Raise MemoryError
      else if 0 <? variant_level then
        Ok (Array_tp_name self +:+ "(" +:+ parent_repr +:+ ", signature=" +:+ sig_repr
            +:+ ", variant_level=" +:+ string_of_long variant_level +:+ ")")
      else
        Ok (Array_tp_name self +:+ "(" +:+ parent_repr +:+ ", signature=" +:+ sig_repr
            +:+ ")")
  | _, Raise e => Raise e
  | Raise e, Ok _ => Raise e
  end.

Definition Array_tp_new (cls : string) (args : list object) (kwargs : kwdict)
    : result Array :=
  if oom rt site_tp_new then Raise MemoryError
  else
    let variant_level := kw_lookup kwargs variant_level_const in
    match variant_level with
    | Some v =>
        match PyInt_AsLong v with
        | Ok n => Ok {| Array_tp_name := cls; Array_super := [];
                        Array_signature := PyNone; Array_variant_level := n |}
        | Raise e => Raise e
        end
    | None => Ok {| Array_tp_name := cls; Array_super := [];
                    Array_signature := PyNone; Array_variant_level := 0 |}
    end.

(** [self] is updated in place: the first component is [self] when the
    function returns, the second [Ok tt] for 0 and the error for -1. *)
Definition Array_tp_init (self : Array) (args : list object) (kwargs : kwdict)
    : Array * result unit :=
  match parse_OOO args kwargs Array_init_argnames with
  | Raise e => (self, Raise e)
  | Ok (obj, signature, _) =>
      let obj := default empty_tuple obj in
      let signature := default PyNone signature in
      match (if is_None signature || Signature_Check signature then Ok signature
             else Signature_call rt signature) with
      | Raise e => (self, Raise e)
      | Ok signature =>
          match Py_BuildValue_O rt obj with
          | Raise e => (self, Raise e)
          | Ok tuple =>
              match PyList_tp_init rt (Array_super self) tuple with
              | (items, Raise e) =>
                  ({| Array_tp_name := Array_tp_name self; Array_super := items;
                      Array_signature := Array_signature self;
                      Array_variant_level := Array_variant_level self |}, Raise e)
              | (items, Ok _) =>
                  ({| Array_tp_name := Array_tp_name self; Array_super := items;
                      Array_signature := signature;
                      Array_variant_level := Array_variant_level self |}, Ok tt)
              end
          end
      end
  end.

(** [tp_setattro] is 0: the slot is inherited, and [PyObject_GenericSetAttr]
    finds the member descriptors of [Array_tp_members].  An instance of the
    type itself has no [__dict__], so any other name is an error. *)
Definition Array_setattro (self : Array) (attr : string) (value : option object)
    : Array * result unit :=
  match find_member Array_tp_members attr with
  | Some m =>
      match member_store m (Array_signature self) (Array_variant_level self) value with
      | ((sig, vl), r) =>
          ({| Array_tp_name := Array_tp_name self; Array_super := Array_super self;
              Array_signature := sig; Array_variant_level := vl |}, r)
      end
  | None => (self, Raise AttributeError)
  end.

(** [type_call]: [tp_new], then [tp_init] with the same arguments; the new
    object is dropped when [tp_init] fails. *)
Definition Array_call (cls : string) (args : list object) (kwargs : kwdict)
    : result Array :=
  self ← Array_tp_new cls args kwargs;
  match Array_tp_init self args kwargs with
  | (self', Ok _) => Ok self'
  | (_, Raise e) => Raise e
  end.

(** What a program can do with an Array once it has it. *)
Inductive Array_op :=
| Array_op_init (args : list object) (kwargs : kwdict)
| Array_op_setattr (attr : string) (value : option object)
| Array_op_repr
| Array_op_list (method : list object -> list object).

Definition Array_apply (self : Array) (op : Array_op) : Array :=
  match op with
  | Array_op_init args kwargs => fst (Array_tp_init self args kwargs)
  | Array_op_setattr attr value => fst (Array_setattro self attr value)
  | Array_op_repr => self
  | Array_op_list method =>
      {| Array_tp_name := Array_tp_name self; Array_super := method (Array_super self);
         Array_signature := Array_signature self;
         Array_variant_level := Array_variant_level self |}
  end.

(** **** Dict *)

Definition Dict_tp_repr (self : Dict) : result string :=
  let parent_repr := PyDict_tp_repr rt (Dict_super self) in
  let sig_repr := signature_repr rt (Dict_signature self) in
  let variant_level := Dict_variant_level self in
  match parent_repr, sig_repr with
  | Ok parent_repr, Ok sig_repr =>
      if oom rt site_format then Raise MemoryError
      else if 0 <? variant_level then
        Ok (Dict_tp_name self +:+ "(" +:+ parent_repr +:+ ", signature=" +:+ sig_repr
            +:+ ", variant_level=" +:+ string_of_long variant_level +:+ ")")
      else
        Ok (Dict_tp_name self +:+ "(" +:+ parent_repr +:+ ", signature=" +:+ sig_repr
            +:+ ")")
  | _, Raise e => Raise e
  | Raise e, Ok _ => Raise e
  end.

Definition Dict_tp_new (cls : string) (args : list object) (kwargs : kwdict)
    : result Dict :=
  if oom rt site_tp_new then Raise MemoryError
  else
    let variant_level := kw_lookup kwargs variant_level_const in
    match variant_level with
    | Some v =>
        match PyInt_AsLong v with
        | Ok n => Ok {| Dict_tp_name := cls; Dict_super := [];
                        Dict_signature := PyNone; Dict_variant_level := n |}
        | Raise e => Raise e
        end
    | None => Ok {| Dict_tp_name := cls; Dict_super := [];
                    Dict_signature := PyNone; Dict_variant_level := 0 |}
    end.

Definition Dict_tp_init (self : Dict) (args : list object) (kwargs : kwdict)
    : Dict * result unit :=
  match parse_OOO args kwargs Dict_init_argnames with
  | Raise e => (self, Raise e)
  | Ok (obj, signature, _) =>
      let obj := default empty_tuple obj in
      let signature := default PyNone signature in
      match (if is_None signature || Signature_Check signature then Ok signature
             else Signature_call rt signature) with
      | Raise e => (self, Raise e)
      | Ok signature =>
          match Py_BuildValue_O rt obj with
          | Raise e => (self, Raise e)
          | Ok tuple =>
              match PyDict_tp_init rt (Dict_super self) tuple with
              | (entries, Raise e) =>
                  ({| Dict_tp_name := Dict_tp_name self; Dict_super := entries;
                      Dict_signature := Dict_signature self;
                      Dict_variant_level := Dict_variant_level self |}, Raise e)
              | (entries, Ok _) =>
                  ({| Dict_tp_name := Dict_tp_name self; Dict_super := entries;
                      Dict_signature := signature;
                      Dict_variant_level := Dict_variant_level self |}, Ok tt)
              end
          end
      end
  end.

Definition Dict_setattro (self : Dict) (attr : string) (value : option object)
    : Dict * result unit :=
  match find_member Dict_tp_members attr with
  | Some m =>
      match member_store m (Dict_signature self) (Dict_variant_level self) value with
      | ((sig, vl), r) =>
          ({| Dict_tp_name := Dict_tp_name self; Dict_super := Dict_super self;
              Dict_signature := sig; Dict_variant_level := vl |}, r)
      end
  | None => (self, Raise AttributeError)
  end.

Definition Dict_call (cls : string) (args : list object) (kwargs : kwdict)
    : result Dict :=
  self ← Dict_tp_new cls args kwargs;
  match Dict_tp_init self args kwargs with
  | (self', Ok _) => Ok self'
  | (_, Raise e) => Raise e
  end.

Inductive Dict_op :=
| Dict_op_init (args : list object) (kwargs : kwdict)
| Dict_op_setattr (attr : string) (value : option object)
| Dict_op_repr
| Dict_op_dict (method : list (object * object) -> list (object * object)).

Definition Dict_apply (self : Dict) (op : Dict_op) : Dict :=
  match op with
  | Dict_op_init args kwargs => fst (Dict_tp_init self args kwargs)
  | Dict_op_setattr attr value => fst (Dict_setattro self attr value)
  | Dict_op_repr => self
  | Dict_op_dict method =>
      {| Dict_tp_name := Dict_tp_name self; Dict_super := method (Dict_super self);
         Dict_signature := Dict_signature self;
         Dict_variant_level := Dict_variant_level self |}
  end.

(** **** Struct *)

(** [PyObject_GenericSetAttr] on a Struct: neither name is a descriptor of
    the tuple type, so the value goes to the instance dictionary. *)
Definition PyObject_GenericSetAttr (self : Struct) (attr : string) (value : object)
    : result Struct :=
  if oom rt (site_setattr attr) then Raise MemoryError
  else Ok {| Struct_tp_name := Struct_tp_name self;
             Struct_ob_item := Struct_ob_item self;
             Struct_dict := <[attr := value]> (Struct_dict self) |}.

(** [PyObject_GetAttr], that is the slot [PyObject_GenericGetAttr], for a
    name that the tuple type does not define. *)
Definition PyObject_GetAttr (self : Struct) (attr : string) : result object :=
  match Struct_dict self !! attr with
  | Some v => Ok v
  | None => Raise AttributeError
  end.

(** Modelled from the spec: [Glue_immutable_setattro], the [tp_setattro]
    slot of [StructType], is defined in another file of the binding.  The
    specification has every attribute assignment on a constructed
    Struct-container fail as an immutability violation. *)
Definition Glue_immutable_setattro (self : Struct) (attr : string)
    (value : option object) : Struct * result unit :=
  (self, Raise ImmutableError).

Definition Struct_tp_repr (self : Struct) : result string :=
  match PyTuple_tp_repr rt (Struct_ob_item self) with
  | Raise e => Raise e
  | Ok parent_repr =>
      match PyObject_GetAttr self signature_const with
      | Raise e => Raise e
      | Ok sig =>
          match signature_repr rt sig with
          | Raise e => Raise e
          | Ok sig_repr =>
              match PyObject_GetAttr self variant_level_const with
              | Raise e => Raise e
              | Ok vl_obj =>
                  let variant_level :=
                    match PyInt_AsLong vl_obj with Ok n => n | Raise _ => -1 end in
                  if oom rt site_format then Raise MemoryError
                  else if 0 <? variant_level then
                    Ok (Struct_tp_name self +:+ "(" +:+ parent_repr +:+ ", signature="
                        +:+ sig_repr +:+ ", variant_level="
                        +:+ string_of_long variant_level +:+ ")")
                  else
                    Ok (Struct_tp_name self +:+ "(" +:+ parent_repr +:+ ", signature="
                        +:+ sig_repr +:+ ")")
              end
          end
      end
  end.

Definition Struct_tp_new (cls : string) (args : list object) (kwargs : kwdict)
    : result Struct :=
  if negb (length args =? 1)%nat then Raise TypeError
  else
    '(signature, variantness) ← parse_OOint [] kwargs Struct_new_argnames;
    let variantness := default (PyInt 0) variantness in
    items ← PyTuple_tp_new rt args;
    let self := {| Struct_tp_name := cls; Struct_ob_item := items;
                   Struct_dict := ∅ |} in
    self ← PyObject_GenericSetAttr self variant_level_const variantness;
    let signature := default PyNone signature in
    signature ← (if is_None signature || Signature_Check signature then Ok signature
                 else Signature_call rt signature);
    PyObject_GenericSetAttr self signature_const signature.

(** [tp_init] is 0 and the inherited initialiser does nothing: calling the
    type is [tp_new]. *)
Definition Struct_call (cls : string) (args : list object) (kwargs : kwdict)
    : result Struct :=
  Struct_tp_new cls args kwargs.

(** The attribute [variant_level] as a program reads it. *)
Definition Struct_variant_level (self : Struct) : result Z :=
  vl_obj ← PyObject_GetAttr self variant_level_const;
  PyInt_AsLong vl_obj.

(** Assignments and deletions of attributes, one after the other. *)
Fixpoint Struct_setattrs (self : Struct) (ops : list (string * option object))
    : Struct * list (result unit) :=
  match ops with
  | [] => (self, [])
  | (attr, value) :: ops' =>
      let '(self', r) := Glue_immutable_setattro self attr value in
      let '(self'', rs) := Struct_setattrs self' ops' in
      (self'', r :: rs)
  end.

End WithRuntime.

(** A runtime for the examples: no allocation fails, and [Signature] accepts
    the strings made of D-Bus type codes. *)
Definition type_code (c : ascii) : bool := contains_char c "ybnqiuxtdsogav(){}".

Fixpoint all_chars (p : ascii -> bool) (s : string) : bool :=
  match s with
  | EmptyString => true
  | String c s' => p c && all_chars p s'
  end.

Definition sample_runtime : Runtime :=
  {| Signature_tp_new := fun x =>
       match x with
       | PyStr s => if all_chars type_code s then Ok s else Raise ValueError
       | _ => Raise TypeError
       end;
     Signature_tp_repr := fun s => "Signature(" +:+ string_repr s +:+ ")";
     Signature_tp_iter := fun s => ([], Ok tt);
     oom := fun _ => false |}.

(** The dict of the keyword arguments of a call. *)
Definition keywords (l : list (string * object)) : kwdict := Some (list_to_map l).

(** Values the examples use. *)
Definition array_12_level2 : Array :=
  {| Array_tp_name := "dbus.Array"; Array_super := [PyInt 1; PyInt 2];
     Array_signature := PySignature "i"; Array_variant_level := 2 |}.

Definition array_12_negative : Array :=
  {| Array_tp_name := "dbus.Array"; Array_super := [PyInt 1; PyInt 2];
     Array_signature := PyNone; Array_variant_level := -1 |}.

Definition array_empty : Array :=
  {| Array_tp_name := "dbus.Array"; Array_super := [];
     Array_signature := PyNone; Array_variant_level := 0 |}.

Definition dict_12 : Dict :=
  {| Dict_tp_name := "dbus.Dictionary"; Dict_super := [(PyInt 1, PyInt 2)];
     Dict_signature := PyNone; Dict_variant_level := 0 |}.

Definition dict_12_34 : Dict :=
  {| Dict_tp_name := "dbus.Dictionary";
     Dict_super := [(PyInt 1, PyInt 2); (PyInt 3, PyInt 4)];
     Dict_signature := PySignature "ii"; Dict_variant_level := 0 |}.

Definition struct_1a : Struct :=
  {| Struct_tp_name := "dbus.Struct"; Struct_ob_item := [PyInt 1; PyStr "a"];
     Struct_dict := <[signature_const := PySignature "(is)"]>
                      (<[variant_level_const := PyInt 0]> ∅) |}.

End Containers.

(** ** pending-call-impl.h *)

Module PendingCall.

(** Pointers are addresses; NULL is [None]. *)
Definition DBusPendingCall := positive.
Definition DBusMessage := positive.
Definition PyObject := positive.

(** [typedef struct { PyObject_HEAD DBusPendingCall *pc; } PendingCall]. *)
Record PendingCall := { pc : option DBusPendingCall }.

Inductive PyGILState_STATE := PyGILState_LOCKED | PyGILState_UNLOCKED.

(** The calls the two functions make, in the order they make them. *)
Inductive event :=
| E_gil_ensure
| E_gil_release (gil : PyGILState_STATE)
| E_begin_allow_threads
| E_end_allow_threads
| E_steal_reply (pc : DBusPendingCall)
| E_cancel (pc : DBusPendingCall)
| E_unref (pc : DBusPendingCall)
| E_set_notify (pc : DBusPendingCall) (user_data : PyObject)
| E_warn
| E_consume_message (msg : DBusMessage)
| E_call (callable : PyObject) (args : list PyObject)
| E_incref (o : PyObject)
| E_decref (o : PyObject)
| E_xdecref (o : option PyObject)
| E_new
| E_decref_self
| E_del
| E_err_nomemory.

(** An exception in the error indicator of the thread, named after the
    call that left it set. *)
Inductive exception :=
| raised_by_decode (msg : DBusMessage)
| raised_by_call (callable : PyObject) (args : list PyObject)
| raised_no_memory.

(** The calling thread: whether it holds the interpreter lock, the nesting
    counter of the [PyGILState] API, the calls made so far, those of them
    that touched a value of the interpreter without the lock, and the error
    indicator of its thread state ([curexc_type]; [None] when no exception
    is set). *)
Record state := {
  holds_gil : bool;
  gilstate_counter : nat;
  trace : list event;
  unguarded : list event;
  curexc : option exception
}.

Definition io (A : Type) : Type := state -> A * state.

#[global] Instance io_ret : MRet io := fun _ a s => (a, s).
#[global] Instance io_bind : MBind io := fun _ _ f m s =>
  let '(a, s') := m s in f a s'.

(** A call into libdbus. *)
Definition dbus (e : event) : io unit := fun s =>
  (tt, {| holds_gil := holds_gil s; gilstate_counter := gilstate_counter s;
          trace := trace s ++ [e]; unguarded := unguarded s;
          curexc := curexc s |}).

(** A call that reads or writes values of the interpreter. *)
Definition host (e : event) : io unit := fun s =>
  (tt, {| holds_gil := holds_gil s; gilstate_counter := gilstate_counter s;
          trace := trace s ++ [e];
          unguarded := if holds_gil s then unguarded s else unguarded s ++ [e];
          curexc := curexc s |}).

(** A call that fails sets its exception; nothing here clears one. *)
Definition set_exception (x : exception) : io unit := fun s =>
  (tt, {| holds_gil := holds_gil s; gilstate_counter := gilstate_counter s;
          trace := trace s; unguarded := unguarded s; curexc := Some x |}).

Definition PyGILState_Ensure : io PyGILState_STATE := fun s =>
  (if holds_gil s then PyGILState_LOCKED else PyGILState_UNLOCKED,
   {| holds_gil := true; gilstate_counter := S (gilstate_counter s);
      trace := trace s ++ [E_gil_ensure]; unguarded := unguarded s;
      curexc := curexc s |}).

(** When the counter comes back to 0 the thread state was made by the
    matching [PyGILState_Ensure]: it is cleared and deleted, and an
    exception that is set goes with it.  Otherwise the thread keeps its
    state, and the exception. *)
Definition PyGILState_Release (gil : PyGILState_STATE) : io unit := fun s =>
  (tt, {| holds_gil := match gil with
                       | PyGILState_LOCKED => holds_gil s
                       | PyGILState_UNLOCKED => false
                       end;
          gilstate_counter := pred (gilstate_counter s);
          trace := trace s ++ [E_gil_release gil]; unguarded := unguarded s;
          curexc := match pred (gilstate_counter s) with
                    | O => None
                    | S _ => curexc s
                    end |}).

Definition Py_BEGIN_ALLOW_THREADS : io unit := fun s =>
  (tt, {| holds_gil := false; gilstate_counter := gilstate_counter s;
          trace := trace s ++ [E_begin_allow_threads]; unguarded := unguarded s;
          curexc := curexc s |}).

Definition Py_END_ALLOW_THREADS : io unit := fun s =>
  (tt, {| holds_gil := true; gilstate_counter := gilstate_counter s;
          trace := trace s ++ [E_end_allow_threads]; unguarded := unguarded s;
          curexc := curexc s |}).

(** What libdbus, the allocator, the [Message] collaborator and the handler
    answer.  [fresh_object] is the block [PyObject_New] returns: [None] when
    the allocation fails, otherwise an object whose [pc] field holds what
    the memory held ([PyObject_New] initialises the object header only). *)
Record Env := {
  reply_of : DBusPendingCall -> option DBusMessage;
  decoded : DBusMessage -> option PyObject;
  handler_result : PyObject -> list PyObject -> option PyObject;
  fresh_object : option PendingCall;
  set_notify_ok : DBusPendingCall -> PyObject -> bool
}.

Section WithEnv.
Variable env : Env.

Definition dbus_pending_call_steal_reply (pc : DBusPendingCall)
    : io (option DBusMessage) :=
  dbus (E_steal_reply pc);; mret (reply_of env pc).

(** [Message_ConsumeDBusMessage] is defined in another file of the binding:
    the new [Message], or NULL, with its exception set, when it cannot be
    allocated. *)
Definition Message_ConsumeDBusMessage (msg : DBusMessage) : io (option PyObject) :=
  host (E_consume_message msg);;
  match decoded env msg with
  | Some msg_obj => mret (Some msg_obj)
  | None => set_exception (raised_by_decode msg);; mret None
  end.

(** [PyObject_CallFunctionObjArgs(callable, ..., NULL)]: NULL, with the
    exception set, when the call raises. *)
Definition PyObject_CallFunctionObjArgs (callable : PyObject) (args : list PyObject)
    : io (option PyObject) :=
  host (E_call callable args);;
  match handler_result env callable args with
  | Some ret => mret (Some ret)
  | None => set_exception (raised_by_call callable args);; mret None
  end.

Definition _pending_call_notify_function (pc : DBusPendingCall) (handler : PyObject)
    : io unit :=
  gil ← PyGILState_Ensure;
  msg ← dbus_pending_call_steal_reply pc;
  match msg with
  | None => host E_warn
  | Some msg =>
      msg_obj ← Message_ConsumeDBusMessage msg;
      match msg_obj with
      | Some msg_obj =>
          ret ← PyObject_CallFunctionObjArgs handler [msg_obj];
          host (E_xdecref ret)
      | None => mret tt
      end
  end;;
  PyGILState_Release gil.

Definition PendingCall_tp_dealloc (self : PendingCall) : io unit :=
  match pc self with
  | Some p =>
      Py_BEGIN_ALLOW_THREADS;;
      dbus (E_unref p);;
      Py_END_ALLOW_THREADS
  | None => mret tt
  end;;
  host E_del.

(** [PyObject_New(PendingCall, &PendingCallType)]: unlike [tp_alloc], it
    does not clear the block.  When it fails, [MemoryError] is set. *)
Definition PyObject_New : io (option PendingCall) :=
  host E_new;;
  match fresh_object env with
  | Some self => mret (Some self)
  | None => set_exception raised_no_memory;; mret None
  end.

Definition PyErr_NoMemory : io unit :=
  host E_err_nomemory;; set_exception raised_no_memory.

(** [Py_DECREF(self)] on the object [PyObject_New] has just returned: its
    only reference goes, and [tp_dealloc] runs. *)
Definition Py_DECREF_self (self : PendingCall) : io unit :=
  host E_decref_self;; PendingCall_tp_dealloc self.

Definition dbus_pending_call_set_notify (pc : DBusPendingCall) (user_data : PyObject)
    : io bool :=
  dbus (E_set_notify pc user_data);; mret (set_notify_ok env pc user_data).

(** The result is the new PendingCall, or NULL with [MemoryError] set. *)
Definition PendingCall_ConsumeDBusPendingCall (pc : DBusPendingCall)
    (callable : PyObject) : io (option PendingCall) :=
  self ← PyObject_New;
  match self with
  | None =>
      Py_BEGIN_ALLOW_THREADS;;
      dbus (E_cancel pc);;
      dbus (E_unref pc);;
      Py_END_ALLOW_THREADS;;
      mret None
  | Some self =>
      host (E_incref callable);;
      Py_BEGIN_ALLOW_THREADS;;
      ret ← dbus_pending_call_set_notify pc callable;
      Py_END_ALLOW_THREADS;;
      if negb ret then
        PyErr_NoMemory;;
        host (E_decref callable);;
        Py_DECREF_self self;;
        Py_BEGIN_ALLOW_THREADS;;
        dbus (E_cancel pc);;
        dbus (E_unref pc);;
        Py_END_ALLOW_THREADS;;
        mret None
      else
        mret (Some {| pc := Some pc |})
  end.

End WithEnv.

(** Observations on a trace. *)
Definition calls_of (t : list event) : list (PyObject * list PyObject) :=
  omap (fun e => match e with E_call f args => Some (f, args) | _ => None end) t.

Definition count (p : event -> bool) (t : list event) : nat :=
  length (List.filter p t).

Definition warnings_of (t : list event) : nat :=
  count (fun e => match e with E_warn => true | _ => false end) t.

Definition unrefs_of (p : DBusPendingCall) (t : list event) : nat :=
  count (fun e => match e with E_unref q => Pos.eqb q p | _ => false end) t.

Definition cancels_of (p : DBusPendingCall) (t : list event) : nat :=
  count (fun e => match e with E_cancel q => Pos.eqb q p | _ => false end) t.

(** References to [o] taken minus references to [o] given back. *)
Definition net_refs (o : PyObject) (t : list event) : Z :=
  Z.of_nat (count (fun e => match e with E_incref q => Pos.eqb q o | _ => false end) t)
  - Z.of_nat (count (fun e => match e with E_decref q => Pos.eqb q o | _ => false end) t).

(** The thread as libdbus or the interpreter hands it to a function. *)
Definition start (gil : bool) (n : nat) : state :=
  {| holds_gil := gil; gilstate_counter := n; trace := []; unguarded := [];
     curexc := None |}.

(** The calls of one run of the notification callback. *)
Definition notify_trace (env : Env) (gil : bool) (n : nat) (pc : DBusPendingCall)
    (handler : PyObject) : list event :=
  trace (snd (_pending_call_notify_function env pc handler (start gil n))).

(** The first sentence of the specification about the callback, as it is
    written: a warning and no call when there is no reply, and otherwise one
    call of the handler on the decoded Message. *)
Definition handler_called_for_every_reply (env : Env) (pc : DBusPendingCall)
    (handler : PyObject) : Prop :=
  match reply_of env pc with
  | None =>
      warnings_of (notify_trace env false 0 pc handler) = 1%nat
      /\ calls_of (notify_trace env false 0 pc handler) = []
  | Some msg =>
      exists msg_obj, calls_of (notify_trace env false 0 pc handler) = [(handler, [msg_obj])]
  end.

(** Environments for the examples.  In [env_reply] the reply 7 of every
    call is decoded into the Message 8 and the handler returns 9; in
    [env_no_message] the Message cannot be allocated; in [env_raises] the
    handler raises.  [env_stale p] is a process short of memory in which
    [dbus_pending_call_set_notify] fails and the block of the new object
    still holds the address [p] where its [pc] field is. *)
Definition env_reply : Env :=
  {| reply_of := fun _ => Some 7%positive;
     decoded := fun _ => Some 8%positive;
     handler_result := fun _ _ => Some 9%positive;
     fresh_object := Some {| pc := None |};
     set_notify_ok := fun _ _ => true |}.

Definition env_no_message : Env :=
  {| reply_of := fun _ => Some 7%positive;
     decoded := fun _ => None;
     handler_result := fun _ _ => Some 9%positive;
     fresh_object := Some {| pc := None |};
     set_notify_ok := fun _ _ => true |}.

Definition env_raises : Env :=
  {| reply_of := fun _ => Some 7%positive;
     decoded := fun _ => Some 8%positive;
     handler_result := fun _ _ => None;
     fresh_object := Some {| pc := None |};
     set_notify_ok := fun _ _ => true |}.

Definition env_stale (p : DBusPendingCall) : Env :=
  {| reply_of := fun _ => None;
     decoded := fun _ => None;
     handler_result := fun _ _ => None;
     fresh_object := Some {| pc := Some p |};
     set_notify_ok := fun _ _ => false |}.

End PendingCall.

(** * Properties of the containers *)

Import Py Containers.

Section ContainerProperties.
Variable rt : Runtime.

(** ** Allocation fixes the variant level *)

Lemma Array_tp_new_Ok cls args kwargs a :
  Array_tp_new rt cls args kwargs = Ok a ->
  keyword_variant_level kwargs = Ok (Array_variant_level a)
  /\ Array_signature a = PyNone /\ Array_super a = [] /\ Array_tp_name a = cls.
Proof.
  unfold Array_tp_new, keyword_variant_level.
  destruct (oom rt site_tp_new); [discriminate|].
  destruct (kw_lookup kwargs variant_level_const) as [v|].
  - destruct (PyInt_AsLong v) as [n|e]; [|discriminate].
    intros [= <-]; auto.
  - intros [= <-]; auto.
Qed.

Lemma Dict_tp_new_Ok cls args kwargs d :
  Dict_tp_new rt cls args kwargs = Ok d ->
  keyword_variant_level kwargs = Ok (Dict_variant_level d)
  /\ Dict_signature d = PyNone /\ Dict_super d = [] /\ Dict_tp_name d = cls.
Proof.
  unfold Dict_tp_new, keyword_variant_level.
  destruct (oom rt site_tp_new); [discriminate|].
  destruct (kw_lookup kwargs variant_level_const) as [v|].
  - destruct (PyInt_AsLong v) as [n|e]; [|discriminate].
    intros [= <-]; auto.
  - intros [= <-]; auto.
Qed.

(** The initialiser never writes the field. *)
Lemma Array_tp_init_variant_level self args kwargs :
  Array_variant_level (fst (Array_tp_init rt self args kwargs)) = Array_variant_level self
  /\ Array_tp_name (fst (Array_tp_init rt self args kwargs)) = Array_tp_name self.
Proof.
  unfold Array_tp_init.
  destruct (parse_OOO args kwargs Array_init_argnames) as [[[obj sig] vl]|e]; [|done].
  destruct (if is_None (default PyNone sig) || Signature_Check (default PyNone sig)
            then Ok (default PyNone sig)
            else Signature_call rt (default PyNone sig)) as [sig'|e]; [|done].
  destruct (Py_BuildValue_O rt (default empty_tuple obj)) as [tuple|e]; [|done].
  destruct (PyList_tp_init rt (Array_super self) tuple) as [items [[]|e]]; done.
Qed.

Lemma Dict_tp_init_variant_level self args kwargs :
  Dict_variant_level (fst (Dict_tp_init rt self args kwargs)) = Dict_variant_level self
  /\ Dict_tp_name (fst (Dict_tp_init rt self args kwargs)) = Dict_tp_name self.
Proof.
  unfold Dict_tp_init.
  destruct (parse_OOO args kwargs Dict_init_argnames) as [[[obj sig] vl]|e]; [|done].
  destruct (if is_None (default PyNone sig) || Signature_Check (default PyNone sig)
            then Ok (default PyNone sig)
            else Signature_call rt (default PyNone sig)) as [sig'|e]; [|done].
  destruct (Py_BuildValue_O rt (default empty_tuple obj)) as [tuple|e]; [|done].
  destruct (PyDict_tp_init rt (Dict_super self) tuple) as [entries [[]|e]]; done.
Qed.

(** Both members are read-only: no assignment and no deletion goes
    through, whatever the name. *)
Lemma Array_setattro_fails self attr value :
  exists e, Array_setattro self attr value = (self, Raise e).
Proof.
  unfold Array_setattro, find_member, Array_tp_members. cbn [find name].
  destruct self as [tp items sig vl].
  destruct (String.eqb "signature" attr); [by eexists|].
  destruct (String.eqb "variant_level" attr); by eexists.
Qed.

Lemma Dict_setattro_fails self attr value :
  exists e, Dict_setattro self attr value = (self, Raise e).
Proof.
  unfold Dict_setattro, find_member, Dict_tp_members. cbn [find name].
  destruct self as [tp items sig vl].
  destruct (String.eqb "signature" attr); [by eexists|].
  destruct (String.eqb "variant_level" attr); by eexists.
Qed.

Lemma Array_setattro_readonly self value :
  Array_setattro self variant_level_const value = (self, Raise TypeError)
  /\ Array_setattro self signature_const value = (self, Raise TypeError).
Proof. by destruct self. Qed.

Lemma Dict_setattro_readonly self value :
  Dict_setattro self variant_level_const value = (self, Raise TypeError)
  /\ Dict_setattro self signature_const value = (self, Raise TypeError).
Proof. by destruct self. Qed.

Lemma Array_apply_variant_level self op :
  Array_variant_level (Array_apply rt self op) = Array_variant_level self.
Proof.
  destruct op as [args kwargs|attr value| |method]; cbn [Array_apply]; try done.
  - apply Array_tp_init_variant_level.
  - by destruct (Array_setattro_fails self attr value) as [e ->].
Qed.

Lemma Dict_apply_variant_level self op :
  Dict_variant_level (Dict_apply rt self op) = Dict_variant_level self.
Proof.
  destruct op as [args kwargs|attr value| |method]; cbn [Dict_apply]; try done.
  - apply Dict_tp_init_variant_level.
  - by destruct (Dict_setattro_fails self attr value) as [e ->].
Qed.

Lemma Array_ops_variant_level ops : forall self,
  Array_variant_level (fold_left (Array_apply rt) ops self) = Array_variant_level self.
Proof.
  induction ops as [|op ops IH]; intros self; cbn [fold_left]; [done|].
  by rewrite IH, Array_apply_variant_level.
Qed.

Lemma Dict_ops_variant_level ops : forall self,
  Dict_variant_level (fold_left (Dict_apply rt) ops self) = Dict_variant_level self.
Proof.
  induction ops as [|op ops IH]; intros self; cbn [fold_left]; [done|].
  by rewrite IH, Dict_apply_variant_level.
Qed.

Lemma Array_call_Ok cls args kwargs a :
  Array_call rt cls args kwargs = Ok a ->
  exists self, Array_tp_new rt cls args kwargs = Ok self
               /\ Array_tp_init rt self args kwargs = (a, Ok tt).
Proof.
  unfold Array_call. destruct (Array_tp_new rt cls args kwargs) as [self|e]; [|done].
  cbn. destruct (Array_tp_init rt self args kwargs) as [self' [[]|e]] eqn:E; [|done].
  intros [= <-]. eauto.
Qed.

Lemma Dict_call_Ok cls args kwargs d :
  Dict_call rt cls args kwargs = Ok d ->
  exists self, Dict_tp_new rt cls args kwargs = Ok self
               /\ Dict_tp_init rt self args kwargs = (d, Ok tt).
Proof.
  unfold Dict_call. destruct (Dict_tp_new rt cls args kwargs) as [self|e]; [|done].
  cbn. destruct (Dict_tp_init rt self args kwargs) as [self' [[]|e]] eqn:E; [|done].
  intros [= <-]. eauto.
Qed.

Lemma Array_call_variant_level cls args kwargs a :
  Array_call rt cls args kwargs = Ok a ->
  keyword_variant_level kwargs = Ok (Array_variant_level a).
Proof.
  intros (self & Hnew & Hinit)%Array_call_Ok.
  apply Array_tp_new_Ok in Hnew as (-> & _).
  pose proof (Array_tp_init_variant_level self args kwargs) as [H _].
  rewrite Hinit in H. cbn in H. by rewrite H.
Qed.

Lemma Dict_call_variant_level cls args kwargs d :
  Dict_call rt cls args kwargs = Ok d ->
  keyword_variant_level kwargs = Ok (Dict_variant_level d).
Proof.
  intros (self & Hnew & Hinit)%Dict_call_Ok.
  apply Dict_tp_new_Ok in Hnew as (-> & _).
  pose proof (Dict_tp_init_variant_level self args kwargs) as [H _].
  rewrite Hinit in H. cbn in H. by rewrite H.
Qed.

(** ** The signature argument *)

(** The conversion the three constructors write out is the rule of the
    specification. *)
Lemma signature_conversion (signature : option object) :
  (if is_None (default PyNone signature) || Signature_Check (default PyNone signature)
   then Ok (default PyNone signature)
   else Signature_call rt (default PyNone signature))
  = normalized_signature rt signature.
Proof. by destruct signature as [[]|]. Qed.

Lemma normalized_signature_Ok signature o :
  normalized_signature rt signature = Ok o ->
  o = PyNone \/ exists s, o = PySignature s.
Proof.
  destruct signature as [x|]; cbn; [|intros [= <-]; by left].
  destruct x; cbn; try (intros [= <-]; eauto; fail);
    (destruct (Signature_tp_new rt _); cbn; [intros [= <-]; eauto | done]).
Qed.

Lemma Array_tp_init_Ok self args kwargs a :
  Array_tp_init rt self args kwargs = (a, Ok tt) ->
  exists obj signature vl,
    parse_OOO args kwargs Array_init_argnames = Ok (obj, signature, vl)
    /\ normalized_signature rt signature = Ok (Array_signature a)
    /\ PyList_tp_init rt (Array_super self) [default empty_tuple obj]
        = (Array_super a, Ok tt)
    /\ Array_variant_level a = Array_variant_level self
    /\ Array_tp_name a = Array_tp_name self.
Proof.
  unfold Array_tp_init.
  destruct (parse_OOO args kwargs Array_init_argnames) as [[[obj sig] vl]|e]; [|done].
  rewrite signature_conversion.
  destruct (normalized_signature rt sig) as [sig'|e] eqn:Hsig; [|done].
  unfold Py_BuildValue_O. destruct (oom rt site_build_value); [done|].
  destruct (PyList_tp_init rt (Array_super self) [default empty_tuple obj])
    as [items [[]|e]] eqn:Hinit; [|done].
  intros [= <-]. exists obj, sig, vl. by rewrite Hinit.
Qed.

Lemma Dict_tp_init_Ok self args kwargs d :
  Dict_tp_init rt self args kwargs = (d, Ok tt) ->
  exists obj signature vl,
    parse_OOO args kwargs Dict_init_argnames = Ok (obj, signature, vl)
    /\ normalized_signature rt signature = Ok (Dict_signature d)
    /\ PyDict_tp_init rt (Dict_super self) [default empty_tuple obj]
        = (Dict_super d, Ok tt)
    /\ Dict_variant_level d = Dict_variant_level self
    /\ Dict_tp_name d = Dict_tp_name self.
Proof.
  unfold Dict_tp_init.
  destruct (parse_OOO args kwargs Dict_init_argnames) as [[[obj sig] vl]|e]; [|done].
  rewrite signature_conversion.
  destruct (normalized_signature rt sig) as [sig'|e] eqn:Hsig; [|done].
  unfold Py_BuildValue_O. destruct (oom rt site_build_value); [done|].
  destruct (PyDict_tp_init rt (Dict_super self) [default empty_tuple obj])
    as [items [[]|e]] eqn:Hinit; [|done].
  intros [= <-]. exists obj, sig, vl. by rewrite Hinit.
Qed.

(** ** Struct *)

Lemma parse_OOint_Ok kwargs signature vl :
  parse_OOint [] kwargs Struct_new_argnames = Ok (signature, vl) ->
  signature = kw_lookup kwargs signature_const
  /\ vl = kw_lookup kwargs variant_level_const
  /\ (forall v, vl = Some v -> exists n, v = PyInt n).
Proof.
  unfold parse_OOint, PyArg_ParseTupleAndKeywords.
  destruct (known_keywords kwargs Struct_new_argnames); [|done].
  cbn. fold signature_const variant_level_const.
  destruct (kw_lookup kwargs variant_level_const) as [v|].
  - destruct v; cbn; try done. intros [= <- <-]. repeat split. intros ? [= <-]. eauto.
  - intros [= <- <-]. by repeat split.
Qed.

Lemma Struct_tp_new_Ok cls args kwargs s :
  Struct_tp_new rt cls args kwargs = Ok s ->
  exists signature vl items sig',
    length args = 1%nat
    /\ parse_OOint [] kwargs Struct_new_argnames = Ok (signature, vl)
    /\ PyTuple_tp_new rt args = Ok items
    /\ normalized_signature rt signature = Ok sig'
    /\ s = {| Struct_tp_name := cls; Struct_ob_item := items;
              Struct_dict := <[signature_const := sig']>
                               (<[variant_level_const := default (PyInt 0) vl]> ∅) |}.
Proof.
  unfold Struct_tp_new.
  destruct (length args =? 1)%nat eqn:Hlen; [|done]. cbn [negb].
  apply Nat.eqb_eq in Hlen.
  destruct (parse_OOint [] kwargs Struct_new_argnames) as [[sig vl]|e] eqn:Hparse; [|done].
  cbn. destruct (PyTuple_tp_new rt args) as [items|e] eqn:Htuple; [|done].
  cbn. unfold PyObject_GenericSetAttr.
  destruct (oom rt (site_setattr variant_level_const)); [done|]. cbn.
  rewrite signature_conversion.
  destruct (normalized_signature rt sig) as [sig'|e] eqn:Hsig; [|done].
  cbn. destruct (oom rt (site_setattr signature_const)); [done|].
  intros [= <-]. by exists sig, vl, items, sig'.
Qed.

Lemma Struct_call_attributes cls args kwargs s :
  Struct_call rt cls args kwargs = Ok s ->
  exists n sig,
    keyword_variant_level kwargs = Ok n
    /\ Struct_variant_level s = Ok n
    /\ PyObject_GetAttr s variant_level_const = Ok (PyInt n)
    /\ normalized_signature rt (kw_lookup kwargs signature_const) = Ok sig
    /\ PyObject_GetAttr s signature_const = Ok sig.
Proof.
  intros (sig & vl & items & sig' & _ & Hparse & _ & Hsig & ->)%Struct_tp_new_Ok.
  apply parse_OOint_Ok in Hparse as (-> & -> & Hint).
  unfold keyword_variant_level, Struct_variant_level, PyObject_GetAttr. cbn.
  rewrite lookup_insert_eq, lookup_insert_ne, lookup_insert_eq by done.
  destruct (kw_lookup kwargs variant_level_const) as [v|].
  - destruct (Hint v eq_refl) as [n ->]. by exists n, sig'.
  - by exists 0, sig'.
Qed.

End ContainerProperties.

(** ** The claims about construction *)

Section ConstructionClaims.
Variable rt : Runtime.

(** C1, as amended: after a construction that succeeds, the variant level of
    an Array, a Dictionary or a Struct is the integer the keyword
    [variant_level] of the call stands for, 0 when the call has no such
    keyword.  It is therefore not negative when the keyword is absent or not
    negative. *)
Theorem C1_variant_level_is_the_keyword_value cls args kwargs :
  (forall a, Array_call rt cls args kwargs = Ok a ->
     keyword_variant_level kwargs = Ok (Array_variant_level a))
  /\ (forall d, Dict_call rt cls args kwargs = Ok d ->
        keyword_variant_level kwargs = Ok (Dict_variant_level d))
  /\ (forall s, Struct_call rt cls args kwargs = Ok s ->
        exists n, keyword_variant_level kwargs = Ok n
                  /\ Struct_variant_level s = Ok n)
  /\ (forall n, keyword_variant_level kwargs = Ok n -> 0 <= n ->
        (forall a, Array_call rt cls args kwargs = Ok a -> 0 <= Array_variant_level a)
        /\ (forall d, Dict_call rt cls args kwargs = Ok d -> 0 <= Dict_variant_level d)
        /\ (forall s v, Struct_call rt cls args kwargs = Ok s ->
              Struct_variant_level s = Ok v -> 0 <= v)).
Proof.
  split; [apply Array_call_variant_level|].
  split; [apply Dict_call_variant_level|].
  split.
  - intros s (n & sig & Hk & Hv & _)%Struct_call_attributes. eauto.
  - intros n Hk Hn. repeat split.
    + intros a Ha%Array_call_variant_level. rewrite Hk in Ha. by injection Ha as <-.
    + intros d Hd%Dict_call_variant_level. rewrite Hk in Hd. by injection Hd as <-.
    + intros s v (m & sig & Hk' & Hv & _)%Struct_call_attributes Hv'.
      rewrite Hk in Hk'. rewrite Hv in Hv'. congruence.
Qed.

(** C2: the variant level of an Array or a Dictionary is set by the
    allocation, from the keyword arguments alone (the positional arguments
    play no part, and without the keyword it is 0); no later operation
    changes it: not a second initialisation, whatever its arguments, and not
    an assignment to the attribute, which fails. *)
Theorem C2_variant_level_is_fixed_at_allocation cls args args' kwargs :
  (Array_variant_level <$> Array_tp_new rt cls args kwargs
   = if oom rt site_tp_new then Raise MemoryError else keyword_variant_level kwargs)
  /\ (Dict_variant_level <$> Dict_tp_new rt cls args kwargs
      = if oom rt site_tp_new then Raise MemoryError else keyword_variant_level kwargs)
  /\ Array_tp_new rt cls args kwargs = Array_tp_new rt cls args' kwargs
  /\ Dict_tp_new rt cls args kwargs = Dict_tp_new rt cls args' kwargs
  /\ (kw_lookup kwargs variant_level_const = None ->
      (forall a, Array_call rt cls args kwargs = Ok a -> Array_variant_level a = 0)
      /\ (forall d, Dict_call rt cls args kwargs = Ok d -> Dict_variant_level d = 0))
  /\ (forall a args1 kwargs1,
        Array_variant_level (fst (Array_tp_init rt a args1 kwargs1))
        = Array_variant_level a)
  /\ (forall d args1 kwargs1,
        Dict_variant_level (fst (Dict_tp_init rt d args1 kwargs1))
        = Dict_variant_level d)
  /\ (forall a value,
        Array_setattro a variant_level_const value = (a, Raise TypeError))
  /\ (forall d value,
        Dict_setattro d variant_level_const value = (d, Raise TypeError))
  /\ (forall a ops,
        Array_variant_level (fold_left (Array_apply rt) ops a) = Array_variant_level a)
  /\ (forall d ops,
        Dict_variant_level (fold_left (Dict_apply rt) ops d) = Dict_variant_level d).
Proof.
  split; [|split; [|split; [|split; [|split]]]].
  - unfold Array_tp_new, keyword_variant_level.
    destruct (oom rt site_tp_new); [done|].
    destruct (kw_lookup kwargs variant_level_const) as [v|]; [|done].
    by destruct (PyInt_AsLong v).
  - unfold Dict_tp_new, keyword_variant_level.
    destruct (oom rt site_tp_new); [done|].
    destruct (kw_lookup kwargs variant_level_const) as [v|]; [|done].
    by destruct (PyInt_AsLong v).
  - reflexivity.
  - reflexivity.
  - intros Habsent. split.
    + intros a Ha%Array_call_variant_level.
      unfold keyword_variant_level in Ha. rewrite Habsent in Ha. by injection Ha as <-.
    + intros d Hd%Dict_call_variant_level.
      unfold keyword_variant_level in Hd. rewrite Habsent in Hd. by injection Hd as <-.
  - repeat split; intros.
    + apply Array_tp_init_variant_level.
    + apply Dict_tp_init_variant_level.
    + apply Array_setattro_readonly.
    + apply Dict_setattro_readonly.
    + apply Array_ops_variant_level.
    + apply Dict_ops_variant_level.
Qed.

(** C3: the constructors turn the [signature] argument into None or a
    Signature: absent, None and a Signature are kept, anything else goes
    through the one-argument constructor of [Signature].  When that
    constructor fails, its error is the error of the construction and no
    container is returned; so the signature of a container that was
    returned is None or an instance of [Signature]. *)
Theorem C3_signature_is_none_or_a_Signature cls args kwargs :
  (forall a, Array_call rt cls args kwargs = Ok a ->
     exists obj signature vl,
       parse_OOO args kwargs Array_init_argnames = Ok (obj, signature, vl)
       /\ normalized_signature rt signature = Ok (Array_signature a)
       /\ (Array_signature a = PyNone \/ exists s, Array_signature a = PySignature s))
  /\ (forall d, Dict_call rt cls args kwargs = Ok d ->
        exists obj signature vl,
          parse_OOO args kwargs Dict_init_argnames = Ok (obj, signature, vl)
          /\ normalized_signature rt signature = Ok (Dict_signature d)
          /\ (Dict_signature d = PyNone \/ exists s, Dict_signature d = PySignature s))
  /\ (forall s, Struct_call rt cls args kwargs = Ok s ->
        exists sig,
          normalized_signature rt (kw_lookup kwargs signature_const) = Ok sig
          /\ PyObject_GetAttr s signature_const = Ok sig
          /\ (sig = PyNone \/ exists t, sig = PySignature t))
  /\ (forall self obj signature vl e,
        Array_tp_new rt cls args kwargs = Ok self ->
        parse_OOO args kwargs Array_init_argnames = Ok (obj, signature, vl) ->
        normalized_signature rt signature = Raise e ->
        Array_call rt cls args kwargs = Raise e)
  /\ (forall self obj signature vl e,
        Dict_tp_new rt cls args kwargs = Ok self ->
        parse_OOO args kwargs Dict_init_argnames = Ok (obj, signature, vl) ->
        normalized_signature rt signature = Raise e ->
        Dict_call rt cls args kwargs = Raise e)
  /\ (forall signature vl items e,
        length args = 1%nat ->
        parse_OOint [] kwargs Struct_new_argnames = Ok (signature, vl) ->
        PyTuple_tp_new rt args = Ok items ->
        oom rt (site_setattr variant_level_const) = false ->
        normalized_signature rt signature = Raise e ->
        Struct_call rt cls args kwargs = Raise e).
Proof.
  repeat split.
  - intros a (self & _ & Hinit)%Array_call_Ok.
    apply Array_tp_init_Ok in Hinit as (obj & sig & vl & Hp & Hs & _).
    exists obj, sig, vl. eauto using normalized_signature_Ok.
  - intros d (self & _ & Hinit)%Dict_call_Ok.
    apply Dict_tp_init_Ok in Hinit as (obj & sig & vl & Hp & Hs & _).
    exists obj, sig, vl. eauto using normalized_signature_Ok.
  - intros s (n & sig & _ & _ & _ & Hs & Hg)%Struct_call_attributes.
    exists sig. eauto using normalized_signature_Ok.
  - intros self obj sig vl e Hnew Hp Hs. unfold Array_call. rewrite Hnew. cbn.
    unfold Array_tp_init. rewrite Hp, signature_conversion, Hs. done.
  - intros self obj sig vl e Hnew Hp Hs. unfold Dict_call. rewrite Hnew. cbn.
    unfold Dict_tp_init. rewrite Hp, signature_conversion, Hs. done.
  - intros sig vl items e Hlen Hp Ht Hoom Hs. unfold Struct_call, Struct_tp_new.
    rewrite Hlen, Hp. cbn. rewrite Ht. cbn. unfold PyObject_GenericSetAttr.
    rewrite Hoom. cbn. rewrite signature_conversion, Hs. done.
Qed.

Lemma Struct_setattrs_fail s ops :
  fst (Struct_setattrs s ops) = s
  /\ length (snd (Struct_setattrs s ops)) = length ops
  /\ Forall (fun r => r = Raise ImmutableError) (snd (Struct_setattrs s ops)).
Proof.
  induction ops as [|[attr value] ops (IH1 & IH2 & IH3)]; [by repeat constructor|].
  cbn. destruct (Struct_setattrs s ops) as [s' rs]. cbn in *.
  repeat split; [done|by f_equal|by constructor].
Qed.

(** C4: once a Struct is constructed, every assignment to an attribute of
    it (and every deletion) fails with the immutability error, whatever the
    attribute, [variant_level] and [signature] included; the items, their
    number, the signature and the variant level are what they were. *)
Theorem C4_struct_attributes_are_write_once cls args kwargs s ops :
  Struct_call rt cls args kwargs = Ok s ->
  fst (Struct_setattrs s ops) = s
  /\ length (snd (Struct_setattrs s ops)) = length ops
  /\ Forall (fun r => r = Raise ImmutableError) (snd (Struct_setattrs s ops))
  /\ Struct_ob_item (fst (Struct_setattrs s ops)) = Struct_ob_item s
  /\ length (Struct_ob_item (fst (Struct_setattrs s ops))) = length (Struct_ob_item s)
  /\ (exists n sig,
         PyObject_GetAttr s signature_const = Ok sig
         /\ Struct_variant_level s = Ok n
         /\ PyObject_GetAttr (fst (Struct_setattrs s ops)) signature_const = Ok sig
         /\ Struct_variant_level (fst (Struct_setattrs s ops)) = Ok n).
Proof.
  intros (n & sig & _ & Hv & _ & _ & Hs)%Struct_call_attributes.
  pose proof (Struct_setattrs_fail s ops) as Hfix.
  destruct Hfix as (Hs' & Hlen & Hall). rewrite Hs'.
  repeat split; try done. by exists n, sig.
Qed.

End ConstructionClaims.

(** ** The claims at concrete calls *)

(** C1, as the specification states it, fails: [variant_level=-1] is
    accepted by the three constructors, and the container has the variant
    level -1. *)
Lemma C1_negative_variant_level_is_accepted :
  -1 < 0
  /\ Array_variant_level
       <$> Array_call sample_runtime "dbus.Array" []
             (keywords [("variant_level", PyInt (-1))]) = Ok (-1)
  /\ Dict_variant_level
       <$> Dict_call sample_runtime "dbus.Dictionary" []
             (keywords [("variant_level", PyInt (-1))]) = Ok (-1)
  /\ Struct_call sample_runtime "dbus.Struct" [PyTuple []]
       (keywords [("variant_level", PyInt (-1))]) ≫= Struct_variant_level = Ok (-1).
Proof. repeat split; vm_compute; reflexivity. Qed.

Lemma C1_variant_level_is_the_keyword_value_witness :
  Array_call sample_runtime "dbus.Array" [PyList [PyInt 1; PyInt 2]; PyStr "i"]
    (keywords [("variant_level", PyInt 2)]) = Ok array_12_level2
  /\ keyword_variant_level (keywords [("variant_level", PyInt 2)])
     = Ok (Array_variant_level array_12_level2).
Proof.
  assert (H : Array_call sample_runtime "dbus.Array"
                [PyList [PyInt 1; PyInt 2]; PyStr "i"]
                (keywords [("variant_level", PyInt 2)]) = Ok array_12_level2)
    by (vm_compute; reflexivity).
  split; [exact H|].
  exact (proj1 (C1_variant_level_is_the_keyword_value sample_runtime _ _ _) _ H).
Defined.

(** A third positional argument is not the variant level. *)
Lemma C2_variant_level_is_fixed_at_allocation_witness :
  Array_call sample_runtime "dbus.Array" [PyList []; PyNone; PyInt 5] None = Ok array_empty
  /\ Array_variant_level array_empty = 0
  /\ Array_variant_level
       (fst (Array_tp_init sample_runtime array_12_level2 [PyList []]
               (keywords [("variant_level", PyInt 7)]))) = 2.
Proof.
  pose proof (C2_variant_level_is_fixed_at_allocation sample_runtime "dbus.Array"
                [PyList []; PyNone; PyInt 5] [] None)
    as (_ & _ & _ & _ & Habsent & Hinit & _).
  assert (H : Array_call sample_runtime "dbus.Array" [PyList []; PyNone; PyInt 5] None
              = Ok array_empty) by (vm_compute; reflexivity).
  split; [exact H|].
  split; [exact (proj1 (Habsent eq_refl) _ H)|].
  exact (Hinit array_12_level2 _ _).
Defined.

(** ["!"] is not a signature: the error of the validator is the error of
    the construction. *)
Lemma C3_signature_is_none_or_a_Signature_witness :
  Array_call sample_runtime "dbus.Array" [PyList []; PyStr "!"] None = Raise ValueError
  /\ normalized_signature sample_runtime (Some (PyStr "is")) = Ok (PySignature "is").
Proof.
  pose proof (C3_signature_is_none_or_a_Signature sample_runtime "dbus.Array"
                [PyList []; PyStr "!"] None) as (_ & _ & _ & Hfail & _).
  split; [|reflexivity].
  apply (Hfail array_empty (Some (PyList [])) (Some (PyStr "!")) None ValueError);
    vm_compute; reflexivity.
Defined.

(** The Struct [(1, "a")] with the signature ["(is)"]. *)
Lemma C4_struct_attributes_are_write_once_witness :
  Struct_call sample_runtime "dbus.Struct" [PyTuple [PyInt 1; PyStr "a"]]
    (keywords [("signature", PyStr "(is)")]) = Ok struct_1a
  /\ fst (Struct_setattrs struct_1a
            [("variant_level", Some (PyInt 5)); ("signature", None); ("x", Some PyNone)])
     = struct_1a
  /\ Struct_ob_item struct_1a = [PyInt 1; PyStr "a"].
Proof.
  assert (H : Struct_call sample_runtime "dbus.Struct" [PyTuple [PyInt 1; PyStr "a"]]
                (keywords [("signature", PyStr "(is)")]) = Ok struct_1a)
    by (vm_compute; reflexivity).
  split; [exact H|]. split; [|reflexivity].
  exact (proj1 (C4_struct_attributes_are_write_once sample_runtime _ _ _ _
                  [("variant_level", Some (PyInt 5)); ("signature", None);
                   ("x", Some PyNone)] H)).
Defined.

(** ** The display form *)

Section DisplayForm.
Variable rt : Runtime.

Lemma variant_level_clause_empty n :
  variant_level_clause n = EmptyString <-> n <= 0.
Proof.
  unfold variant_level_clause. destruct (0 <? n) eqn:E.
  - apply Z.ltb_lt in E. split; [discriminate|lia].
  - apply Z.ltb_ge in E. split; [done|reflexivity].
Qed.

Lemma container_repr_spec tp_name base_repr sig_repr n :
  0 <= n ->
  container_repr tp_name base_repr sig_repr n
  = spec_container_repr tp_name base_repr sig_repr n.
Proof.
  intros Hn. unfold container_repr, spec_container_repr, variant_level_clause.
  destruct (Z.eqb_spec n 0) as [->|Hne]; [reflexivity|].
  replace (0 <? n) with true by (symmetry; apply Z.ltb_lt; lia). reflexivity.
Qed.

Lemma Array_tp_repr_Ok a :
  oom rt site_parent_repr = false -> oom rt site_sig_repr = false ->
  oom rt site_format = false ->
  Array_tp_repr rt a
  = Ok (container_repr (Array_tp_name a) (PyObject_Repr rt (PyList (Array_super a)))
          (PyObject_Repr rt (Array_signature a)) (Array_variant_level a)).
Proof.
  intros H1 H2 H3.
  unfold Array_tp_repr, PyList_tp_repr, signature_repr, container_repr,
    variant_level_clause.
  rewrite H1, H2, H3. by destruct (0 <? Array_variant_level a).
Qed.

Lemma Dict_tp_repr_Ok d :
  oom rt site_parent_repr = false -> oom rt site_sig_repr = false ->
  oom rt site_format = false ->
  Dict_tp_repr rt d
  = Ok (container_repr (Dict_tp_name d) (PyObject_Repr rt (PyDict (Dict_super d)))
          (PyObject_Repr rt (Dict_signature d)) (Dict_variant_level d)).
Proof.
  intros H1 H2 H3.
  unfold Dict_tp_repr, PyDict_tp_repr, signature_repr, container_repr,
    variant_level_clause.
  rewrite H1, H2, H3. by destruct (0 <? Dict_variant_level d).
Qed.

Lemma Struct_tp_repr_Ok s sig n :
  oom rt site_parent_repr = false -> oom rt site_sig_repr = false ->
  oom rt site_format = false ->
  PyObject_GetAttr s signature_const = Ok sig ->
  PyObject_GetAttr s variant_level_const = Ok (PyInt n) ->
  Struct_tp_repr rt s
  = Ok (container_repr (Struct_tp_name s) (PyObject_Repr rt (PyTuple (Struct_ob_item s)))
          (PyObject_Repr rt sig) n).
Proof.
  intros H1 H2 H3 Hsig Hvl.
  unfold Struct_tp_repr, PyTuple_tp_repr, signature_repr, container_repr,
    variant_level_clause.
  rewrite H1, Hsig, H2, Hvl, H3. cbn [PyInt_AsLong]. by destruct (0 <? n).
Qed.

(** C5, as amended: the display form of a container is
    [<type-name>(<base-repr>, signature=<signature-repr>)], with
    [, variant_level=<n>] before the closing parenthesis when the variant
    level n is positive, and only then; the display form of the base
    container is inside it as it is.  For a variant level that is not
    negative this is the form of the specification. *)
Theorem C5_display_form_has_the_clause_for_positive_levels :
  oom rt site_parent_repr = false -> oom rt site_sig_repr = false ->
  oom rt site_format = false ->
  (forall a,
     Array_tp_repr rt a
     = Ok (Array_tp_name a +:+ "(" +:+ PyObject_Repr rt (PyList (Array_super a))
           +:+ ", signature=" +:+ PyObject_Repr rt (Array_signature a)
           +:+ variant_level_clause (Array_variant_level a) +:+ ")"))
  /\ (forall d,
        Dict_tp_repr rt d
        = Ok (Dict_tp_name d +:+ "(" +:+ PyObject_Repr rt (PyDict (Dict_super d))
              +:+ ", signature=" +:+ PyObject_Repr rt (Dict_signature d)
              +:+ variant_level_clause (Dict_variant_level d) +:+ ")"))
  /\ (forall cls args kwargs s,
        Struct_call rt cls args kwargs = Ok s ->
        exists n sig,
          Struct_variant_level s = Ok n
          /\ PyObject_GetAttr s signature_const = Ok sig
          /\ Struct_tp_repr rt s
             = Ok (Struct_tp_name s +:+ "(" +:+ PyObject_Repr rt (PyTuple (Struct_ob_item s))
                   +:+ ", signature=" +:+ PyObject_Repr rt sig
                   +:+ variant_level_clause n +:+ ")"))
  /\ (forall n, variant_level_clause n
                = if 0 <? n then ", variant_level=" +:+ string_of_long n else EmptyString)
  /\ (forall n, variant_level_clause n = EmptyString <-> n <= 0)
  /\ (forall tp_name base_repr sig_repr n, 0 <= n ->
        container_repr tp_name base_repr sig_repr n
        = spec_container_repr tp_name base_repr sig_repr n).
Proof.
  intros H1 H2 H3. repeat split.
  - intros a. by rewrite Array_tp_repr_Ok.
  - intros d. by rewrite Dict_tp_repr_Ok.
  - intros cls args kwargs s (n & sig & _ & Hv & Hvl & _ & Hsig)%Struct_call_attributes.
    exists n, sig. by rewrite (Struct_tp_repr_Ok s sig n).
  - by intros ?%variant_level_clause_empty.
  - by intros ?%variant_level_clause_empty.
  - intros. by apply container_repr_spec.
Qed.

End DisplayForm.

(** C5, as the specification states it, fails: the Array [[1, 2]] of variant
    level -1 is displayed without the clause, although its level is not 0. *)
Lemma C5_negative_level_is_displayed_without_the_clause :
  Array_call sample_runtime "dbus.Array" [PyList [PyInt 1; PyInt 2]]
    (keywords [("variant_level", PyInt (-1))]) = Ok array_12_negative
  /\ Array_variant_level array_12_negative <> 0
  /\ Array_tp_repr sample_runtime array_12_negative
     = Ok "dbus.Array([1, 2], signature=None)"
  /\ spec_container_repr "dbus.Array" "[1, 2]" "None" (-1)
     = "dbus.Array([1, 2], signature=None, variant_level=-1)"
  /\ Array_tp_repr sample_runtime array_12_negative
     <> Ok (spec_container_repr (Array_tp_name array_12_negative)
              (PyObject_Repr sample_runtime (PyList (Array_super array_12_negative)))
              (PyObject_Repr sample_runtime (Array_signature array_12_negative))
              (Array_variant_level array_12_negative)).
Proof. repeat split; try (vm_compute; reflexivity); vm_compute; discriminate. Qed.

Lemma C5_display_form_has_the_clause_for_positive_levels_witness :
  Array_tp_repr sample_runtime array_12_level2
  = Ok "dbus.Array([1, 2], signature=Signature('i'), variant_level=2)"
  /\ Array_tp_repr sample_runtime array_empty = Ok "dbus.Array([], signature=None)".
Proof.
  pose proof (C5_display_form_has_the_clause_for_positive_levels sample_runtime
                eq_refl eq_refl eq_refl) as (HA & _).
  split; [exact (HA array_12_level2) | exact (HA array_empty)].
Defined.

(** ** A second initialisation *)

Section SecondInitialisation.
Variable rt : Runtime.

(** [list_init] with one argument stores the items of the argument. *)
Lemma PyList_tp_init_one ob_item arg :
  PyList_tp_init rt ob_item [arg] = iterate rt arg.
Proof. reflexivity. Qed.

(** Storing an entry keeps the keys that are there, in their order. *)
Lemma insertdict_keys k v mp :
  exists added, map fst (insertdict k v mp) = map fst mp ++ added.
Proof.
  induction mp as [|[k' v'] mp [added IH]]; cbn [insertdict].
  - by exists [k].
  - destruct (key_eqb k' k).
    + exists []. cbn. by rewrite app_nil_r.
    + exists added. cbn. by rewrite IH.
Qed.

Lemma PyDict_SetItem_keys mp k v mp' :
  PyDict_SetItem mp k v = Ok mp' ->
  exists added, map fst mp' = map fst mp ++ added.
Proof.
  unfold PyDict_SetItem. destruct (hashable k); [|done].
  intros [= <-]. apply insertdict_keys.
Qed.

Lemma PyDict_Merge_keys other : forall mp mp' r,
  PyDict_Merge mp other = (mp', r) ->
  exists added, map fst mp' = map fst mp ++ added.
Proof.
  induction other as [|[k v] other IH]; intros mp mp' r; cbn [PyDict_Merge].
  - intros [= <- <-]. exists []. by rewrite app_nil_r.
  - destruct (PyDict_SetItem mp k v) as [mp1|e] eqn:Hset.
    + intros [added ->]%IH. apply PyDict_SetItem_keys in Hset as [added1 ->].
      exists (added1 ++ added). by rewrite app_assoc.
    + intros [= <- <-]. exists []. by rewrite app_nil_r.
Qed.

Lemma merge_pairs_keys pairs : forall mp mp' r,
  merge_pairs rt mp pairs = (mp', r) ->
  exists added, map fst mp' = map fst mp ++ added.
Proof.
  induction pairs as [|item pairs IH]; intros mp mp' r; cbn [merge_pairs].
  - intros [= <- <-]. exists []. by rewrite app_nil_r.
  - assert (Hsame : forall r0, (mp, r0) = (mp', r) ->
                      exists added, map fst mp' = map fst mp ++ added).
    { intros r0 [= <- <-]. exists []. by rewrite app_nil_r. }
    destruct (PySequence_Fast rt item) as [[|k [|v [|x l]]]|e]; eauto.
    destruct (PyDict_SetItem mp k v) as [mp1|e] eqn:Hset; eauto.
    intros [added ->]%IH. apply PyDict_SetItem_keys in Hset as [added1 ->].
    exists (added1 ++ added). by rewrite app_assoc.
Qed.

Lemma PyDict_tp_init_keys mp args mp' r :
  PyDict_tp_init rt mp args = (mp', r) ->
  exists added, map fst mp' = map fst mp ++ added.
Proof.
  assert (Hsame : forall r0, (mp, r0) = (mp', r) ->
                    exists added, map fst mp' = map fst mp ++ added).
  { intros r0 [= <- <-]. exists []. by rewrite app_nil_r. }
  assert (Hseq : forall arg, PyDict_MergeFromSeq2 rt mp arg = (mp', r) ->
                   exists added, map fst mp' = map fst mp ++ added).
  { intros arg. unfold PyDict_MergeFromSeq2.
    destruct (iterate rt arg) as [pairs [[]|e]]; [apply merge_pairs_keys|].
    destruct (merge_pairs rt mp pairs) as [mp1 [[]|e1]] eqn:Hm;
      intros [= <- <-]; eapply merge_pairs_keys, Hm. }
  unfold PyDict_tp_init.
  destruct args as [|arg [|arg2 args]]; [by apply Hsame| |by destruct arg; apply Hsame].
  destruct arg; try apply Hseq. apply PyDict_Merge_keys.
Qed.

(** Storing an entry under another key leaves an entry as it is. *)
Lemma insertdict_other k v mp k' v' :
  key_eqb k' k = false -> In (k', v') mp -> In (k', v') (insertdict k v mp).
Proof.
  intros Hne. induction mp as [|[k1 v1] mp IH]; cbn [insertdict]; [done|].
  intros [[= -> ->]|Hin].
  - rewrite Hne. by left.
  - destruct (key_eqb k1 k); right; auto.
Qed.

Lemma PyDict_Merge_other other k' v' : forall mp mp' r,
  PyDict_Merge mp other = (mp', r) ->
  Forall (fun kv => key_eqb k' (fst kv) = false) other ->
  In (k', v') mp -> In (k', v') mp'.
Proof.
  induction other as [|[k v] other IH]; intros mp mp' r; cbn [PyDict_Merge].
  - by intros [= <- <-].
  - unfold PyDict_SetItem. destruct (hashable k).
    + intros Hm Hall Hin. inversion Hall as [|? ? Hk Hall']; subst.
      eapply IH; eauto using insertdict_other.
    + by intros [= <- <-].
Qed.

(** C9, as amended: a second initialisation of an Array stores the items of
    the new iterable in place of the old ones; a second initialisation of a
    Dictionary is the initialiser of the base mapping on the stored entries,
    which merges the new mapping into them: the keys that are stored stay,
    and an entry whose key the new mapping does not have keeps its value.  Both replace the signature by the normalised new
    one, although the member is read-only for assignment, and leave the
    variant level as it is. *)
Theorem C9_second_initialisation :
  (forall a args kwargs a',
     Array_tp_init rt a args kwargs = (a', Ok tt) ->
     exists obj signature vl,
       parse_OOO args kwargs Array_init_argnames = Ok (obj, signature, vl)
       /\ iterate rt (default empty_tuple obj) = (Array_super a', Ok tt)
       /\ normalized_signature rt signature = Ok (Array_signature a')
       /\ Array_variant_level a' = Array_variant_level a)
  /\ (forall d args kwargs d',
        Dict_tp_init rt d args kwargs = (d', Ok tt) ->
        exists obj signature vl,
          parse_OOO args kwargs Dict_init_argnames = Ok (obj, signature, vl)
          /\ PyDict_tp_init rt (Dict_super d) [default empty_tuple obj]
             = (Dict_super d', Ok tt)
          /\ (exists added, map fst (Dict_super d') = map fst (Dict_super d) ++ added)
          /\ normalized_signature rt signature = Ok (Dict_signature d')
          /\ Dict_variant_level d' = Dict_variant_level d)
  /\ (forall mp other mp' r k v,
        PyDict_tp_init rt mp [PyDict other] = (mp', r) ->
        Forall (fun kv => key_eqb k (fst kv) = false) other ->
        In (k, v) mp -> In (k, v) mp')
  /\ (forall a value, Array_setattro a signature_const value = (a, Raise TypeError))
  /\ (forall d value, Dict_setattro d signature_const value = (d, Raise TypeError)).
Proof.
  repeat split.
  - intros a args kwargs a' (obj & sig & vl & Hp & Hs & Hl & Hv & _)%Array_tp_init_Ok.
    exists obj, sig, vl. by rewrite <- PyList_tp_init_one with (ob_item := Array_super a).
  - intros d args kwargs d' (obj & sig & vl & Hp & Hs & Hl & Hv & _)%Dict_tp_init_Ok.
    exists obj, sig, vl. repeat split; try done. eapply PyDict_tp_init_keys, Hl.
  - intros mp other mp' r k v. apply PyDict_Merge_other.
  - intros. apply Array_setattro_readonly.
  - intros. apply Dict_setattro_readonly.
Qed.

End SecondInitialisation.

(** C9, as it is stated, fails for the Dictionary: after [{1: 2}] is
    initialised again with [{3: 4}], the entry of 1 is still there. *)
Lemma C9_second_initialisation_keeps_the_dictionary_entries :
  Dict_call sample_runtime "dbus.Dictionary" [PyDict [(PyInt 1, PyInt 2)]] None
  = Ok dict_12
  /\ Dict_tp_init sample_runtime dict_12 [PyDict [(PyInt 3, PyInt 4)]; PyStr "ii"] None
     = (dict_12_34, Ok tt)
  /\ Dict_super dict_12_34 = [(PyInt 1, PyInt 2); (PyInt 3, PyInt 4)]
  /\ Dict_super dict_12_34 <> [(PyInt 3, PyInt 4)].
Proof. repeat split; try (vm_compute; reflexivity). discriminate. Qed.

Lemma C9_second_initialisation_witness :
  Array_tp_init sample_runtime array_12_level2 [PyTuple []; PyNone] None
  = ({| Array_tp_name := "dbus.Array"; Array_super := [];
        Array_signature := PyNone; Array_variant_level := 2 |}, Ok tt)
  /\ exists added, map fst (Dict_super dict_12_34) = map fst (Dict_super dict_12) ++ added.
Proof.
  split; [vm_compute; reflexivity|].
  destruct (proj1 (proj2 (C9_second_initialisation sample_runtime)) dict_12
              [PyDict [(PyInt 3, PyInt 4)]; PyStr "ii"] None dict_12_34)
    as (obj & sig & vl & _ & _ & Hkeys & _).
  - vm_compute; reflexivity.
  - exact Hkeys.
Defined.

(** * Properties of the pending-call bridge *)

Import PendingCall.

Section NotificationCallback.
Variable env : Env.

(** One run of the callback, from any state of the calling thread. *)
Lemma notify_run pc handler s :
  _pending_call_notify_function env pc handler s
  = (tt, {| holds_gil := holds_gil s;
            gilstate_counter := gilstate_counter s;
            trace :=
              trace s
              ++ [E_gil_ensure; E_steal_reply pc]
              ++ match reply_of env pc with
                 | None => [E_warn]
                 | Some msg =>
                     E_consume_message msg
                     :: match decoded env msg with
                        | Some msg_obj =>
                            [E_call handler [msg_obj];
                             E_xdecref (handler_result env handler [msg_obj])]
                        | None => []
                        end
                 end
              ++ [E_gil_release (if holds_gil s then PyGILState_LOCKED
                                 else PyGILState_UNLOCKED)];
            unguarded := unguarded s;
            curexc :=
              match gilstate_counter s with
              | O => None
              | S _ =>
                  match reply_of env pc with
                  | None => curexc s
                  | Some msg =>
                      match decoded env msg with
                      | None => Some (raised_by_decode msg)
                      | Some msg_obj =>
                          match handler_result env handler [msg_obj] with
                          | Some _ => curexc s
                          | None => Some (raised_by_call handler [msg_obj])
                          end
                      end
                  end
              end |}).
Proof.
  destruct s as [gil n t u x].
  unfold _pending_call_notify_function, dbus_pending_call_steal_reply,
    Message_ConsumeDBusMessage, PyObject_CallFunctionObjArgs, set_exception,
    PyGILState_Ensure, PyGILState_Release, host, dbus, mbind, io_bind, mret, io_ret.
  cbn.
  destruct (reply_of env pc) as [msg|];
    [destruct (decoded env msg) as [msg_obj|];
     [destruct (handler_result env handler [msg_obj])|]|];
    destruct gil, n; cbn; rewrite <- ?app_assoc; reflexivity.
Qed.

Lemma notify_trace_eq gil n pc handler :
  notify_trace env gil n pc handler
  = [E_gil_ensure; E_steal_reply pc]
    ++ match reply_of env pc with
       | None => [E_warn]
       | Some msg =>
           E_consume_message msg
           :: match decoded env msg with
              | Some msg_obj =>
                  [E_call handler [msg_obj];
                   E_xdecref (handler_result env handler [msg_obj])]
              | None => []
              end
       end
    ++ [E_gil_release (if gil then PyGILState_LOCKED else PyGILState_UNLOCKED)].
Proof. unfold notify_trace. by rewrite notify_run. Qed.

(** C6, as amended: when no reply can be stolen the callback warns once and
    does not call the handler.  When a reply is stolen and decoded, it calls
    the stored handler once, with the decoded Message as the one argument,
    and drops what the handler returns.  When the reply cannot be decoded
    it does not call the handler. *)
Theorem C6_handler_called_once_for_a_decoded_reply gil n pc handler :
  calls_of (notify_trace env gil n pc handler)
  = match reply_of env pc with
    | Some msg =>
        match decoded env msg with
        | Some msg_obj => [(handler, [msg_obj])]
        | None => []
        end
    | None => []
    end
  /\ warnings_of (notify_trace env gil n pc handler)
     = match reply_of env pc with None => 1%nat | Some _ => 0%nat end
  /\ fst (_pending_call_notify_function env pc handler (start gil n)) = tt
  /\ (forall msg msg_obj,
        reply_of env pc = Some msg -> decoded env msg = Some msg_obj ->
        notify_trace env gil n pc handler
        = [E_gil_ensure; E_steal_reply pc; E_consume_message msg;
           E_call handler [msg_obj];
           E_xdecref (handler_result env handler [msg_obj]);
           E_gil_release (if gil then PyGILState_LOCKED else PyGILState_UNLOCKED)]).
Proof.
  rewrite notify_trace_eq, notify_run.
  repeat split.
  - destruct (reply_of env pc) as [msg|]; [destruct (decoded env msg)|]; reflexivity.
  - destruct (reply_of env pc) as [msg|]; [destruct (decoded env msg)|]; reflexivity.
  - by intros msg msg_obj -> ->.
Qed.

(** C7: the callback takes the lock of the interpreter before anything
    else, every call it makes on values of the interpreter is made with the
    lock held, and its last call gives the lock back, on each of its paths:
    no reply, a reply that cannot be decoded, a handler that returns and a
    handler that raises.  The thread holds the lock afterwards exactly if
    it held it before. *)
Theorem C7_lock_taken_first_and_released_on_every_path pc handler s :
  holds_gil (snd (_pending_call_notify_function env pc handler s)) = holds_gil s
  /\ gilstate_counter (snd (_pending_call_notify_function env pc handler s))
     = gilstate_counter s
  /\ unguarded (snd (_pending_call_notify_function env pc handler s)) = unguarded s
  /\ exists body,
       trace (snd (_pending_call_notify_function env pc handler s))
       = trace s ++ E_gil_ensure :: body
                 ++ [E_gil_release (if holds_gil s then PyGILState_LOCKED
                                    else PyGILState_UNLOCKED)]
       /\ Forall (fun e => e <> E_gil_ensure /\ forall gil, e <> E_gil_release gil) body.
Proof.
  rewrite notify_run. cbn [snd holds_gil gilstate_counter unguarded trace].
  repeat split.
  eexists (E_steal_reply pc :: _). split; [reflexivity|].
  destruct (reply_of env pc) as [msg|]; [destruct (decoded env msg)|];
    repeat constructor; done.
Qed.

(** C10, as amended: when a reply is stolen and the Message cannot be
    allocated, the callback does not call the handler, issues no warning,
    gives the lock back and returns.  It does not clear the exception the
    failed allocation has set: whatever the thread's state was before, that
    exception is still set after the callback when the thread keeps its
    thread state (its [PyGILState] counter was not 0 when the callback
    started), and it is discarded with the thread state otherwise. *)
Theorem C10_undecodable_reply_leaves_its_exception_set gil n pc handler msg :
  reply_of env pc = Some msg ->
  decoded env msg = None ->
  notify_trace env gil n pc handler
  = [E_gil_ensure; E_steal_reply pc; E_consume_message msg;
     E_gil_release (if gil then PyGILState_LOCKED else PyGILState_UNLOCKED)]
  /\ calls_of (notify_trace env gil n pc handler) = []
  /\ warnings_of (notify_trace env gil n pc handler) = 0%nat
  /\ fst (_pending_call_notify_function env pc handler (start gil n)) = tt
  /\ holds_gil (snd (_pending_call_notify_function env pc handler (start gil n))) = gil
  /\ unguarded (snd (_pending_call_notify_function env pc handler (start gil n))) = []
  /\ forall s,
       curexc (snd (_pending_call_notify_function env pc handler s))
       = match gilstate_counter s with
         | O => None
         | S _ => Some (raised_by_decode msg)
         end.
Proof.
  intros Hreply Hdec. rewrite notify_trace_eq, notify_run, Hreply, Hdec.
  repeat split. intros s. rewrite notify_run, Hreply, Hdec. reflexivity.
Qed.

End NotificationCallback.

(** C6, as the specification states it, fails: in [env_no_message] a reply
    is stolen, and the handler is not called. *)
Lemma C6_handler_not_called_when_decoding_fails :
  reply_of env_no_message 1%positive = Some 7%positive
  /\ calls_of (notify_trace env_no_message false 0 1%positive 2%positive) = []
  /\ ~ handler_called_for_every_reply env_no_message 1%positive 2%positive.
Proof.
  repeat split. intros [msg_obj H]. vm_compute in H. discriminate.
Qed.

Lemma C6_handler_called_once_for_a_decoded_reply_witness :
  calls_of (notify_trace env_reply false 0 1%positive 2%positive)
  = [(2%positive, [8%positive])]
  /\ calls_of (notify_trace env_raises false 0 1%positive 2%positive)
     = [(2%positive, [8%positive])].
Proof.
  split.
  - exact (proj1 (C6_handler_called_once_for_a_decoded_reply env_reply false 0
                    1%positive 2%positive)).
  - exact (proj1 (C6_handler_called_once_for_a_decoded_reply env_raises false 0
                    1%positive 2%positive)).
Defined.

(** A handler that raises: the lock is given back all the same. *)
Lemma C7_lock_taken_first_and_released_on_every_path_witness :
  holds_gil (snd (_pending_call_notify_function env_raises 1%positive 2%positive
                    (start false 0))) = false
  /\ gilstate_counter (snd (_pending_call_notify_function env_raises 1%positive
                              2%positive (start false 0))) = 0%nat.
Proof.
  pose proof (C7_lock_taken_first_and_released_on_every_path env_raises 1%positive
                2%positive (start false 0)) as (H1 & H2 & _).
  split; [exact H1 | exact H2].
Defined.

(** A thread that libdbus runs, with no thread state of its own: the
    handler is not called, there is no warning, and the exception goes with
    the thread state the callback made. *)
Lemma C10_undecodable_reply_leaves_its_exception_set_witness :
  calls_of (notify_trace env_no_message false 0 1%positive 2%positive) = []
  /\ warnings_of (notify_trace env_no_message false 0 1%positive 2%positive) = 0%nat
  /\ curexc (snd (_pending_call_notify_function env_no_message 1%positive 2%positive
                    (start false 0))) = None.
Proof.
  pose proof (C10_undecodable_reply_leaves_its_exception_set env_no_message false 0
                1%positive 2%positive 7%positive eq_refl eq_refl)
    as (_ & H1 & H2 & _ & _ & _ & H3).
  split; [exact H1 | split; [exact H2 | exact (H3 (start false 0))]].
Defined.

(** C10, as the specification states it, fails.  [_block()] gives the lock
    up around [dbus_pending_call_block] and keeps its thread state.  When
    the callback runs in between, in [env_no_message], where the reply is
    stolen and the Message cannot be allocated, the thread that had no
    exception set takes the lock back with the exception of the failed
    allocation set: the error is pending in the caller. *)
Lemma C10_exception_of_the_failed_decode_is_left_to_the_caller :
  reply_of env_no_message 1%positive = Some 7%positive
  /\ decoded env_no_message 7%positive = None
  /\ curexc (start true 1) = None
  /\ curexc (snd (_pending_call_notify_function env_no_message 1%positive 2%positive
                    (snd (Py_BEGIN_ALLOW_THREADS (start true 1)))))
     = Some (raised_by_decode 7%positive)
  /\ curexc (snd ((Py_BEGIN_ALLOW_THREADS;;
                   _pending_call_notify_function env_no_message 1%positive 2%positive;;
                   Py_END_ALLOW_THREADS) (start true 1)))
     = Some (raised_by_decode 7%positive)
  /\ holds_gil (snd ((Py_BEGIN_ALLOW_THREADS;;
                      _pending_call_notify_function env_no_message 1%positive 2%positive;;
                      Py_END_ALLOW_THREADS) (start true 1)))
     = true.
Proof. repeat split. Qed.

(** The instrumentation is not vacuous: a call on a value of the
    interpreter by a thread without the lock is recorded. *)
Lemma host_without_the_lock_is_recorded e :
  unguarded (snd (host e (start false 0))) = [e]
  /\ unguarded (snd (host e (start true 1))) = [].
Proof. done. Qed.

(** ** Creating and destroying a PendingCall *)

Section Creation.
Variable env : Env.

(** The object cannot be allocated: the handle is cancelled and released
    once, no reference to the handler is taken, the result is NULL. *)
Lemma ConsumeDBusPendingCall_allocation_failure pc callable gil n :
  fresh_object env = None ->
  fst (PendingCall_ConsumeDBusPendingCall env pc callable (start gil n)) = None
  /\ trace (snd (PendingCall_ConsumeDBusPendingCall env pc callable (start gil n)))
     = [E_new; E_begin_allow_threads; E_cancel pc; E_unref pc; E_end_allow_threads].
Proof.
  intros Hnew.
  unfold PendingCall_ConsumeDBusPendingCall, PyObject_New, mbind, io_bind. cbn.
  by rewrite Hnew.
Qed.

(** The registration succeeds: the PendingCall owns the handle, which has
    not been released; destroying the PendingCall releases it once. *)
Lemma ConsumeDBusPendingCall_success pc callable gil n self :
  fresh_object env = Some self ->
  set_notify_ok env pc callable = true ->
  fst (PendingCall_ConsumeDBusPendingCall env pc callable (start gil n))
  = Some {| pc := Some pc |}
  /\ trace (snd (PendingCall_ConsumeDBusPendingCall env pc callable (start gil n)))
     = [E_new; E_incref callable; E_begin_allow_threads; E_set_notify pc callable;
        E_end_allow_threads]
  /\ trace (snd (PendingCall_tp_dealloc {| pc := Some pc |} (start true n)))
     = [E_begin_allow_threads; E_unref pc; E_end_allow_threads; E_del].
Proof.
  intros Hnew Hok.
  unfold PendingCall_ConsumeDBusPendingCall, PyObject_New,
    dbus_pending_call_set_notify, mbind, io_bind. cbn.
  by rewrite Hnew, Hok.
Qed.

(** The registration fails: what the function does depends on the [pc]
    field of the block it was given, which it has not written yet when
    [Py_DECREF(self)] runs [PendingCall_tp_dealloc]. *)
Lemma ConsumeDBusPendingCall_registration_failure pc callable gil n self :
  fresh_object env = Some self ->
  set_notify_ok env pc callable = false ->
  fst (PendingCall_ConsumeDBusPendingCall env pc callable (start gil n)) = None
  /\ trace (snd (PendingCall_ConsumeDBusPendingCall env pc callable (start gil n)))
     = [E_new; E_incref callable; E_begin_allow_threads; E_set_notify pc callable;
        E_end_allow_threads; E_err_nomemory; E_decref callable; E_decref_self]
       ++ match PendingCall.pc self with
          | Some stale => [E_begin_allow_threads; E_unref stale; E_end_allow_threads]
          | None => []
          end
       ++ [E_del; E_begin_allow_threads; E_cancel pc; E_unref pc; E_end_allow_threads].
Proof.
  intros Hnew Hok.
  unfold PendingCall_ConsumeDBusPendingCall, PyObject_New, Py_DECREF_self,
    PendingCall_tp_dealloc, dbus_pending_call_set_notify, mbind, io_bind. cbn.
  rewrite Hnew, Hok. cbn. by destruct (PendingCall.pc self).
Qed.

End Creation.

(** C8, at the failing input: [dbus_pending_call_set_notify] fails and the
    block of the new object holds the address of the handle in its [pc]
    field.  The handle 1 is released twice, the first time before it is
    cancelled; the reference to the handler 2 is given back. *)
Theorem C8_failed_registration_releases_the_handle_twice :
  fst (PendingCall_ConsumeDBusPendingCall (env_stale 1%positive) 1%positive 2%positive
         (start true 1)) = None
  /\ trace (snd (PendingCall_ConsumeDBusPendingCall (env_stale 1%positive) 1%positive
                   2%positive (start true 1)))
     = [E_new; E_incref 2%positive; E_begin_allow_threads;
        E_set_notify 1%positive 2%positive; E_end_allow_threads; E_err_nomemory;
        E_decref 2%positive; E_decref_self;
        E_begin_allow_threads; E_unref 1%positive; E_end_allow_threads; E_del;
        E_begin_allow_threads; E_cancel 1%positive; E_unref 1%positive;
        E_end_allow_threads]
  /\ unrefs_of 1%positive
       (trace (snd (PendingCall_ConsumeDBusPendingCall (env_stale 1%positive) 1%positive
                      2%positive (start true 1)))) = 2%nat
  /\ cancels_of 1%positive
       (trace (snd (PendingCall_ConsumeDBusPendingCall (env_stale 1%positive) 1%positive
                      2%positive (start true 1)))) = 1%nat
  /\ net_refs 2%positive
       (trace (snd (PendingCall_ConsumeDBusPendingCall (env_stale 1%positive) 1%positive
                      2%positive (start true 1)))) = 0.
Proof. repeat split. Qed.

(** The paths on which the claim holds: the failed allocation, the failed
    registration when the [pc] field of the new block is NULL, and the
    destruction after a success. *)
Lemma ConsumeDBusPendingCall_clean_paths env p callable gil n :
  (fresh_object env = None ->
   unrefs_of p (trace (snd (PendingCall_ConsumeDBusPendingCall env p callable
                              (start gil n)))) = 1%nat
   /\ cancels_of p (trace (snd (PendingCall_ConsumeDBusPendingCall env p callable
                                  (start gil n)))) = 1%nat
   /\ net_refs callable (trace (snd (PendingCall_ConsumeDBusPendingCall env p callable
                                       (start gil n)))) = 0)
  /\ (fresh_object env = Some {| pc := None |} ->
      set_notify_ok env p callable = false ->
      unrefs_of p (trace (snd (PendingCall_ConsumeDBusPendingCall env p callable
                                 (start gil n)))) = 1%nat
      /\ cancels_of p (trace (snd (PendingCall_ConsumeDBusPendingCall env p callable
                                     (start gil n)))) = 1%nat
      /\ net_refs callable (trace (snd (PendingCall_ConsumeDBusPendingCall env p callable
                                          (start gil n)))) = 0)
  /\ (forall self, fresh_object env = Some self ->
      set_notify_ok env p callable = true ->
      unrefs_of p (trace (snd (PendingCall_ConsumeDBusPendingCall env p callable
                                 (start gil n)))) = 0%nat
      /\ unrefs_of p (trace (snd (PendingCall_tp_dealloc {| pc := Some p |}
                                    (start true n)))) = 1%nat).
Proof.
  split; [|split].
  - intros Hnew.
    destruct (ConsumeDBusPendingCall_allocation_failure env p callable gil n Hnew)
      as [_ ->].
    unfold unrefs_of, cancels_of, net_refs, count. cbn. by rewrite ?Pos.eqb_refl.
  - intros Hnew Hok.
    destruct (ConsumeDBusPendingCall_registration_failure env p callable gil n _ Hnew Hok)
      as [_ ->].
    unfold unrefs_of, cancels_of, net_refs, count. cbn. by rewrite ?Pos.eqb_refl.
  - intros self Hnew Hok.
    destruct (ConsumeDBusPendingCall_success env p callable gil n _ Hnew Hok)
      as (_ & -> & ->).
    unfold unrefs_of, count. cbn. by rewrite ?Pos.eqb_refl.
Qed.
